(** * PytestWorkerManager: spinning up and terminating EC2 workers

    Shallow embedding of [scripts/xdist/pytest_worker_manager.py].

    The script talks to EC2 through a boto3 client, sleeps, logs, and writes
    two text files.  Each of these effects is recorded as an [event]; a
    computation is a pair of the events it performed, oldest first, and the
    value it returned or the exception it raised.  The EC2 client is a
    parameter: a script saying what the n-th call of each kind answers. *)

From Stdlib Require Import ZArith List String Ascii Bool Lia Permutation Sorted.
Import ListNotations.
Local Open Scope string_scope.
Local Open Scope list_scope.
Local Open Scope Z_scope.

(** ** Python values used by the script *)

(** Exceptions that can leave [spin_up_workers] or [terminate_workers].
    [StandardError] is the Python 2 built-in the script raises by name. *)
Inductive exn : Type :=
| StandardError (msg : string)
| ClientError (code : string)          (* botocore.exceptions.ClientError *)
| OtherError (name : string)           (* any exception that is not a ClientError *)
| KeyError (key : string)
| AttributeError (msg : string)
| UnboundLocalError (name : string).

(** One element of [response['Instances']] or of
    [reservations['Instances']].  boto3 leaves [PrivateIpAddress] out of the
    dictionary when the instance has none; subscripting it then raises. *)
Record instance_info : Type := mk_instance_info {
  InstanceId : string;
  StateName : string;                  (* instance_info['State']['Name'] *)
  PrivateIpAddress : option string
}.

(** [list_workers_response['Reservations']]: each reservation holds its
    ['Instances']. *)
Definition reservations : Type := list (list instance_info).

(** Arguments of [spin_up_workers]. *)
Record request : Type := mk_request {
  number_of_workers : Z;
  ami : string;
  instance_type : string;
  subnet : string;
  security_group_ids : list string;
  key_name : string;
  iam_instance_profile : string
}.

(** ** The EC2 client *)

Inductive run_outcome : Type :=
| RunOk (instances : list instance_info)
| RunClientError (code : string)
| RunOtherError (name : string).

Inductive describe_outcome : Type :=
| DescribeOk (rs : reservations)
| DescribeError (e : exn).

Inductive terminate_outcome : Type :=
| TerminateOk
| TerminateError (e : exn).

(** [run_instances c n req] is the answer to the call made on loop iteration
    [retry = n]; [describe_instances c n ids] the answer to the call made on
    iteration [attempt = n].  Every iteration makes exactly one call, so the
    loop index numbers the calls. *)
Record ec2_client : Type := mk_ec2_client {
  run_instances : Z -> request -> run_outcome;
  describe_instances : Z -> list string -> describe_outcome;
  terminate_instances : list string -> terminate_outcome
}.

(** ** Effects *)

(** Records passed to [logger.info] / [logging.info]. *)
Inductive log_record : Type :=
| LogSpinningUp (n : Z)                (* "Spinning up {} workers" *)
| LogHitError (code : string)          (* "Hit error: {}. Retrying" *)
| LogSleepingFor (secs : Z)            (* "Sleeping for {} seconds" *)
| LogStillWaiting (n : nat)            (* "Still waiting on {} workers to spin up" *)
| LogFinished                          (* "Finished spinning up workers" *)
| LogBooted (n : Z)                    (* "Successfully booted up {} workers." *)
| LogIpList (s : string)               (* "Worker IP list: {}" *)
| LogIdList (s : string).              (* "Worker Instance Id list: {}" *)

Inductive event : Type :=
| EvRunInstances (req : request)
| EvDescribeInstances (ids : list string)
| EvTerminateInstances (ids : list string)
| EvSleep (secs : Z)
| EvLog (r : log_record)
| EvWrite (file content : string).     (* open(file, "w"); write; close *)

Definition trace : Type := list event.

Inductive result (A : Type) : Type :=
| Return (a : A)
| Raise (e : exn).
Arguments Return {A} a.
Arguments Raise {A} e.

(** A computation: what it did, and how it ended. *)
Definition M (A : Type) : Type := (trace * result A)%type.

Definition ret {A : Type} (a : A) : M A := ([], Return a).
Definition raise {A : Type} (e : exn) : M A := ([], Raise e).
Definition emit (e : event) : M unit := ([e], Return tt).
Definition bind {A B : Type} (m : M A) (f : A -> M B) : M B :=
  match m with
  | (t, Return a) => let (t', r) := f a in (t ++ t', r)
  | (t, Raise e) => (t, Raise e)
  end.

Declare Scope py_scope.
Delimit Scope py_scope with py.
Notation "x <- m ;; k" := (bind m (fun x => k))
  (at level 100, m at next level, right associativity) : py_scope.
Notation "m ;; k" := (bind m (fun _ => k))
  (at level 100, right associativity) : py_scope.
Local Open Scope py_scope.

(** ** Python built-ins *)

(** [range(a, b)] *)
Definition py_range (a b : Z) : list Z :=
  map (fun i => a + Z.of_nat i) (seq 0 (Z.to_nat (b - a))).

(** [sep.join(l)] *)
Definition py_join (sep : string) (l : list string) : string :=
  String.concat sep l.

(** [s.split(sep)] for a one-character separator. *)
Fixpoint py_split (sep : ascii) (s : string) : list string :=
  match s with
  | EmptyString => [EmptyString]
  | String c rest =>
      if Ascii.eqb c sep then EmptyString :: py_split sep rest
      else match py_split sep rest with
           | [] => [String c EmptyString]
           | hd :: tl => String c hd :: tl
           end
  end.

Definition comma : ascii := ","%char.

(** ** The class constants *)

Definition WORKER_RUN_TIMEOUT_MINUTES : Z := 10.
Definition MAX_RUN_WORKER_RETRIES : Z := 7.

(** ** spin_up_workers *)

Section Manager.

Variable ec2 : ec2_client.

(** The [for retry in range(1, MAX_RUN_WORKER_RETRIES + 1)] loop.  It ends by
    [break] with the response bound, or by an exception; when the range runs
    out, [response] was never assigned.  The message of the [StandardError]
    is the format string of line 58 filled in with [MAX_RUN_WORKER_RETRIES],
    that is 7. *)
Fixpoint run_loop (req : request) (retries : list Z) : M (option (list instance_info)) :=
  match retries with
  | [] => ret None
  | retry :: rest =>
      emit (EvRunInstances req) ;;
      match run_instances ec2 retry req with
      | RunOk insts => ret (Some insts)                       (* else: break *)
      | RunClientError code =>                                (* except ClientError *)
          if retry =? MAX_RUN_WORKER_RETRIES then
            raise (StandardError
              "MAX_RUN_WORKER_RETRIES (7) reached while spinning up tasks due to AWS throttling.")
          else
            emit (EvLog (LogHitError code)) ;;
            let countdown := 2 ^ retry in
            emit (EvLog (LogSleepingFor countdown)) ;;
            emit (EvSleep countdown) ;;
            run_loop req rest
      | RunOtherError name => raise (OtherError name)
      end
  end.

(** Lines 30-68: the retry loop, then the identifiers of the launched
    instances, in the order of [response['Instances']]. *)
Definition launch_workers (req : request) : M (list string) :=
  response <- run_loop req (py_range 1 (MAX_RUN_WORKER_RETRIES + 1)) ;;
  match response with
  | Some insts => ret (map InstanceId insts)
  | None => raise (UnboundLocalError "response")
  end.

(** The body of the two nested loops over a describe response: a running
    instance contributes its address, any other its identifier. *)
Fixpoint scan_instances (infos : list instance_info) (ip_addresses not_running : list string)
  : result (list string * list string) :=
  match infos with
  | [] => Return (ip_addresses, not_running)
  | instance_info :: rest =>
      if String.eqb (StateName instance_info) "running" then
        match PrivateIpAddress instance_info with
        | Some ip => scan_instances rest (ip_addresses ++ [ip]) not_running
        | None => Raise (KeyError "PrivateIpAddress")
        end
      else scan_instances rest ip_addresses (not_running ++ [InstanceId instance_info])
  end.

Fixpoint scan_reservations (rs : reservations) (ip_addresses not_running : list string)
  : result (list string * list string) :=
  match rs with
  | [] => Return (ip_addresses, not_running)
  | r :: rest =>
      match scan_instances r ip_addresses not_running with
      | Return (ips, nr) => scan_reservations rest ips nr
      | Raise e => Raise e
      end
  end.

(** [self.ec2.describe_instances(InstanceIds=not_running)] on iteration
    [attempt]. *)
Definition call_describe_instances (attempt : Z) (ids : list string) : M reservations :=
  emit (EvDescribeInstances ids) ;;
  match describe_instances ec2 attempt ids with
  | DescribeOk rs => ret rs
  | DescribeError e => raise e
  end.

(** The [for attempt in range(0, WORKER_RUN_TIMEOUT_MINUTES * 2)] loop.
    Returns [all_running] and [ip_addresses]. *)
Fixpoint wait_loop (attempts : list Z) (not_running ip_addresses : list string)
  : M (bool * list string) :=
  match attempts with
  | [] => ret (false, ip_addresses)
  | attempt :: rest =>
      emit (EvSleep 5) ;;
      rs <- call_describe_instances attempt not_running ;;
      (* del not_running[:] *)
      match scan_reservations rs ip_addresses [] with
      | Raise e => raise e
      | Return (ips, nr) =>
          if (0 <? List.length nr)%nat then
            emit (EvLog (LogStillWaiting (List.length nr))) ;;
            wait_loop rest nr ips
          else
            emit (EvLog LogFinished) ;;
            ret (true, ips)
      end
  end.

Definition ip_list_file : string := "pytest_worker_ips.txt".
Definition task_arn_file : string := "pytest_worker_instance_ids.txt".

(** Lines 99-110: the two text files. *)
Definition write_files (ip_addresses worker_instance_ids : list string) : M unit :=
  let ip_list_string := py_join "," ip_addresses in
  emit (EvLog (LogIpList ip_list_string)) ;;
  emit (EvWrite ip_list_file ip_list_string) ;;
  let worker_instance_id_list_string := py_join "," worker_instance_ids in
  emit (EvLog (LogIdList worker_instance_id_list_string)) ;;
  emit (EvWrite task_arn_file worker_instance_id_list_string).

Definition spin_up_workers (req : request) : M unit :=
  emit (EvLog (LogSpinningUp (number_of_workers req))) ;;
  worker_instance_ids <- launch_workers req ;;
  r <- wait_loop (py_range 0 (WORKER_RUN_TIMEOUT_MINUTES * 2)) worker_instance_ids [] ;;
  let (all_running, ip_addresses) := r in
  if negb all_running then
    raise (StandardError "Timed out waiting to spin up all workers.")
  else
    emit (EvLog (LogBooted (number_of_workers req))) ;;
    write_files ip_addresses worker_instance_ids.

(** ** terminate_workers *)

(** The argument is the value of [--instance-ids]: a string, or [None] when
    the option was not given. *)
Definition terminate_workers (worker_instance_ids : option string) : M unit :=
  match worker_instance_ids with
  | None => raise (AttributeError "'NoneType' object has no attribute 'split'")
  | Some s =>
      let instance_id_list := py_split comma s in
      emit (EvTerminateInstances instance_id_list) ;;
      match terminate_instances ec2 instance_id_list with
      | TerminateOk => ret tt
      | TerminateError e => raise e
      end
  end.

End Manager.

(** ** Observing a trace *)

(** Number of [run_instances] calls. *)
Fixpoint run_calls (t : trace) : nat :=
  match t with
  | [] => 0%nat
  | EvRunInstances _ :: t' => S (run_calls t')
  | _ :: t' => run_calls t'
  end.

(** Seconds spent in [time.sleep]. *)
Fixpoint total_sleep (t : trace) : Z :=
  match t with
  | [] => 0
  | EvSleep secs :: t' => secs + total_sleep t'
  | _ :: t' => total_sleep t'
  end.

(** The [InstanceIds] of every [describe_instances] call, oldest first. *)
Fixpoint describe_queries (t : trace) : list (list string) :=
  match t with
  | [] => []
  | EvDescribeInstances ids :: t' => ids :: describe_queries t'
  | _ :: t' => describe_queries t'
  end.

(** The [InstanceIds] of every [terminate_instances] call. *)
Fixpoint terminate_calls (t : trace) : list (list string) :=
  match t with
  | [] => []
  | EvTerminateInstances ids :: t' => ids :: terminate_calls t'
  | _ :: t' => terminate_calls t'
  end.

(** Files written, with their contents, oldest first. *)
Fixpoint files_written (t : trace) : list (string * string) :=
  match t with
  | [] => []
  | EvWrite f c :: t' => (f, c) :: files_written t'
  | _ :: t' => files_written t'
  end.

(** What was logged. *)
Fixpoint logged (t : trace) : list log_record :=
  match t with
  | [] => []
  | EvLog r :: t' => r :: logged t'
  | _ :: t' => logged t'
  end.

(** ** Scripted clients *)

(** A client that launches [ids] at once, and whose instance [id] has
    address [addr id] and is reported running from poll [ready_at id] on
    (polls are numbered from 0), pending before.  It answers a describe call
    with one reservation holding the queried instances, in query order. *)
Definition scheduled_info (ready_at : string -> Z) (addr : string -> string)
    (attempt : Z) (id : string) : instance_info :=
  mk_instance_info id
    (if ready_at id <=? attempt then "running" else "pending")
    (Some (addr id)).

Definition scheduled_client (ids : list string) (ready_at : string -> Z)
    (addr : string -> string) : ec2_client :=
  mk_ec2_client
    (fun _ _ => RunOk (map (fun id => mk_instance_info id "pending" (Some (addr id))) ids))
    (fun attempt q => DescribeOk [map (scheduled_info ready_at addr attempt) q])
    (fun _ => TerminateOk).

(** As [scheduled_client], but the first [k] calls of [run_instances] raise
    [ClientError code]. *)
Definition flaky_client (code : string) (k : Z) (ids : list string)
    (ready_at : string -> Z) (addr : string -> string) : ec2_client :=
  mk_ec2_client
    (fun retry req =>
       if retry <=? k then RunClientError code
       else run_instances (scheduled_client ids ready_at addr) retry req)
    (describe_instances (scheduled_client ids ready_at addr))
    (fun _ => TerminateOk).

(** A client whose [run_instances] raises [ClientError code] every time. *)
Definition failing_client (code : string) : ec2_client :=
  mk_ec2_client
    (fun _ _ => RunClientError code)
    (fun _ _ => DescribeOk [])
    (fun _ => TerminateOk).

Definition example_request (n : Z) : request :=
  mk_request n "ami-0" "c5.large" "subnet-0" ["sg-0"] "key" "arn:aws:iam::0:instance-profile/w".

Definition example_addr (id : string) : string :=
  if String.eqb id "i-1" then "10.0.0.1"
  else if String.eqb id "i-2" then "10.0.0.2"
  else "10.0.0.3".

(** Under a schedule, the poll at which an instance is first seen running:
    polls are numbered from 0. *)
Definition first_poll (ready_at : string -> Z) (id : string) : Z :=
  Z.max 0 (ready_at id).

(** The identifiers of [ids] grouped by the poll of [range(a, b)] that
    first sees them running, earlier polls first; within a poll, in the
    order of [ids]. *)
Definition order_from (ready_at : string -> Z) (a b : Z) (ids : list string) : list string :=
  flat_map (fun attempt => filter (fun id => first_poll ready_at id =? attempt) ids)
           (py_range a b).

Definition readiness_order (ready_at : string -> Z) (ids : list string) : list string :=
  order_from ready_at 0 (WORKER_RUN_TIMEOUT_MINUTES * 2) ids.

(** No instance is first seen running at an earlier poll than one launched
    before it. *)
Definition launch_ordered (ready_at : string -> Z) (ids : list string) : Prop :=
  StronglySorted (fun x y => first_poll ready_at x <= first_poll ready_at y) ids.

(** The scenario of three workers, all pending at the first poll and
    running at the second. *)
Definition three_workers : ec2_client :=
  scheduled_client ["i-1"; "i-2"; "i-3"] (fun _ => 1) example_addr.

(** Two workers, the second running one poll before the first. *)
Definition second_first : ec2_client :=
  scheduled_client ["i-1"; "i-2"]
    (fun id => if String.eqb id "i-1" then 1 else 0) example_addr.

(** One worker that is running from the 21st poll on, 105 seconds after the
    launch. *)
Definition late_worker (id : string) : ec2_client :=
  scheduled_client [id] (fun _ => 20) example_addr.

(** [m] ended in an exception without a [terminate_instances] call. *)
Definition rejected_before_provider (m : M unit) : Prop :=
  terminate_calls (fst m) = [] /\ exists e, snd m = Raise e.

(** The two [StandardError]s the script raises. *)
Definition exhausted : exn :=
  StandardError
    "MAX_RUN_WORKER_RETRIES (7) reached while spinning up tasks due to AWS throttling.".
Definition timed_out : exn :=
  StandardError "Timed out waiting to spin up all workers.".

(** The test of line 80. *)
Definition running_info (info : instance_info) : bool :=
  String.eqb (StateName info) "running".

(** The answer to the describe call of iteration [attempt], made for [q],
    reports instance [id] as running. *)
Definition reported_running (ec2 : ec2_client) (attempt : Z) (q : list string)
    (id : string) : Prop :=
  exists rs info,
    describe_instances ec2 attempt q = DescribeOk rs /\
    In info (List.concat rs) /\ InstanceId info = id /\ running_info info = true.

(** The client answers a describe call with one entry for each queried
    identifier, in any order and any grouping into reservations. *)
Definition answers_queried (ec2 : ec2_client) : Prop :=
  forall attempt q rs,
    describe_instances ec2 attempt q = DescribeOk rs ->
    Permutation (map InstanceId (List.concat rs)) q.

(** The string holds a comma. *)
Fixpoint has_comma (s : string) : bool :=
  match s with
  | EmptyString => false
  | String c rest => Ascii.eqb c comma || has_comma rest
  end.

(** An identifier or address as EC2 hands them out: not empty, no comma. *)
Definition valid_entry (s : string) : Prop := s <> "" /\ has_comma s = false.

(** What the script takes for granted of EC2 when it is asked for
    [MinCount = MaxCount = number_of_workers] instances: a successful launch
    returns that many instances; a describe call answers for exactly the
    queried identifiers; identifiers and addresses are well-formed. *)
Record provider_contract (ec2 : ec2_client) (req : request) : Prop := {
  launch_count : forall retry insts,
    run_instances ec2 retry req = RunOk insts ->
    Z.of_nat (List.length insts) = number_of_workers req;
  launch_ids : forall retry insts,
    run_instances ec2 retry req = RunOk insts ->
    Forall valid_entry (map InstanceId insts);
  describe_answers : answers_queried ec2;
  describe_addresses : forall attempt q rs info ip,
    describe_instances ec2 attempt q = DescribeOk rs ->
    In info (List.concat rs) -> PrivateIpAddress info = Some ip ->
    valid_entry ip
}.

(** The 20 iterations of the polling loop. *)
Definition poll_attempts : list Z := py_range 0 (WORKER_RUN_TIMEOUT_MINUTES * 2).

(** Sum of a list of integers. *)
Definition sum_Z (l : list Z) : Z := fold_right Z.add 0 l.

(** The delays the retry loop sleeps after failures [1..k]:
    [2 ** retry] for [retry] in [range(1, k + 1)]. *)
Definition backoff_delays (k : Z) : list Z :=
  map (fun retry => 2 ^ retry) (py_range 1 (k + 1)).

(** Under a schedule, the last poll at which one of [ids] is first seen
    running (0 when there is none). *)
Definition last_poll (ready_at : string -> Z) (ids : list string) : Z :=
  fold_right (fun id m => Z.max (first_poll ready_at id) m) 0 ids.

(** ** The command line *)

(** [--action], with [choices=['up', 'down']]. *)
Inductive cli_action : Type := ActionUp | ActionDown.

(** What [parser.parse_args()] returns: the action ([None] when the option
    is not given), the region, the options of the [up] action, and
    [--instance-ids]. *)
Record cli_args : Type := mk_cli_args {
  action : option cli_action;
  region : string;
  up_options : request;
  instance_ids : option string
}.

(** What the script does when run: its own log record, or an effect of the
    manager. *)
Inductive main_event : Type :=
| MainLog (msg : string)
| ManagerEvent (e : event).

(** The [if __name__ == "__main__"] block after argument parsing.  [connect]
    is [boto3.client('ec2', region)].  The [down] branch looks up
    [terminate_tasks], which the class does not define; the message is the
    one of an instance of a class declared without a base, as here. *)
Definition main (connect : string -> ec2_client) (args : cli_args)
  : list main_event * result unit :=
  let containerManager := connect (region args) in
  match action args with
  | Some ActionUp =>
      let (t, r) := spin_up_workers containerManager (up_options args) in
      (map ManagerEvent t, r)
  | Some ActionDown =>
      ([], Raise (AttributeError
                    "PytestWorkerManager instance has no attribute 'terminate_tasks'"))
  | None => ([MainLog "No action specified for PytestWorkerManager"], Return tt)
  end.

(** The manager's effects among the events of a run of the script. *)
Definition manager_events (t : list main_event) : trace :=
  flat_map (fun e => match e with ManagerEvent e' => [e'] | MainLog _ => [] end) t.

(** A client whose first [k] calls of [run_instances] are throttled and
    whose later calls raise an exception [name] that is not a
    [ClientError]. *)
Definition unreachable_client (k : Z) (name : string) : ec2_client :=
  mk_ec2_client
    (fun retry _ => if retry <=? k then RunClientError "RequestLimitExceeded"
                    else RunOtherError name)
    (fun _ _ => DescribeOk [])
    (fun _ => TerminateOk).

(** A client that launches one instance and reports it running without
    [PrivateIpAddress]. *)
Definition no_address_client : ec2_client :=
  mk_ec2_client
    (fun _ _ => RunOk [mk_instance_info "i-1" "pending" None])
    (fun _ q => DescribeOk [map (fun id => mk_instance_info id "running" None) q])
    (fun _ => TerminateOk).

(** * The create_api_request management command

    Shallow embedding of
    [openedx/core/djangoapps/api_admin/management/commands/create_api_access_request.py].
    The command reads and writes the database through Django's managers;
    the managers are a parameter, a record saying what each call answers,
    and every call is recorded as an event. *)

Module ApiAccessRequestCommand.

(** Exceptions: [CommandError] with its message, or any other exception
    with [type(e).__name__] and [str(e)]. *)
Inductive exception : Type :=
| CommandError (msg : string)
| OtherException (type_name text : string).

(** A [User] row; the command reads [username] only. *)
Record user : Type := mk_user { username : string }.

(** A [Site] row. *)
Record site : Type := mk_site { domain : string; name : string }.

(** The keyword arguments of [ApiAccessRequest.objects.create]. *)
Record api_access_request : Type := mk_api_access_request {
  request_user : user;
  request_status : string;
  request_website : string;
  request_reason : string;
  request_site : site
}.

(** What a manager call answers: a value, or an exception. *)
Inductive answer (A : Type) : Type :=
| Answers (a : A)
| Fails (type_name text : string).
Arguments Answers {A} a.
Arguments Fails {A} type_name text.

(** [User.objects.get(username=...)]: the row, [User.DoesNotExist], or
    another exception. *)
Inductive user_lookup : Type :=
| UserFound (u : user)
| UserDoesNotExist
| UserLookupFails (type_name text : string).

Record managers : Type := mk_managers {
  user_get : string -> user_lookup;
  site_filter_first : string -> answer (option site);   (* Site.objects.filter(name=...).first() *)
  site_get_current : answer site;                       (* Site.objects.get_current() *)
  request_create : api_access_request -> answer unit;   (* ApiAccessRequest.objects.create(...) *)
  config_get_or_create : answer bool                    (* ApiAccessConfig.objects.get_or_create(enabled=True)[1] *)
}.

Inductive event : Type :=
| UserGet (name : string)
| SiteFilterFirst (name : string)
| SiteGetCurrent
| RequestCreate (r : api_access_request)
| ConfigGetOrCreate
| LogInfo (msg : string).

Inductive result (A : Type) : Type :=
| Return (a : A)
| Raise (e : exception).
Arguments Return {A} a.
Arguments Raise {A} e.

Definition M (A : Type) : Type := (list event * result A)%type.

Definition ret {A : Type} (a : A) : M A := ([], Return a).
Definition raise {A : Type} (e : exception) : M A := ([], Raise e).
Definition emit (e : event) : M unit := ([e], Return tt).
Definition bind {A B : Type} (m : M A) (f : A -> M B) : M B :=
  match m with
  | (t, Return a) => let (t', r) := f a in (t ++ t', r)
  | (t, Raise e) => (t, Raise e)
  end.

(** The parsed options [handle] reads.  [username] is positional;
    [create_config] is a [store_true] flag; the others are [None] when not
    given. *)
Record options : Type := mk_options {
  opt_username : string;
  opt_create_config : bool;
  opt_status : option string;
  opt_reason : option string;
  opt_website : option string;
  opt_site_name : option string
}.

Section Command.

(** [ApiAccessRequest.PENDING], defined with the model class in
    [api_admin/models.py]. *)
Variable PENDING : string.

Variable db : managers.

Definition DEFAULT_STATUS : string := PENDING.
Definition DEFAULT_WEBSITE : string := "www.test-edx-example-website.edu".
Definition DUMMY_SITE_NAME : string := "ApiAccessRequest Management Command Dummy Site".
Definition DEFAULT_REASON : string := "Generated by management job create_api_request".

Definition get_user (username : string) : M user :=
  bind (emit (UserGet username)) (fun _ =>
  match user_get db username with
  | UserFound u => ret u
  | UserDoesNotExist => raise (CommandError ("User " ++ username ++ " not found"))
  | UserLookupFails type_name text => raise (OtherException type_name text)
  end).

(** [if site_name:] is false for [None] and for the empty string; a [Site]
    row is always true. *)
Definition get_site (site_name : option string) : M site :=
  match site_name with
  | Some (String c rest as given) =>
      bind (emit (SiteFilterFirst given)) (fun _ =>
      match site_filter_first db given with
      | Answers (Some s) => ret s
      | Answers None => raise (CommandError ("Site " ++ given ++ " not found"))
      | Fails type_name text => raise (OtherException type_name text)
      end)
  | _ =>
      bind (emit SiteGetCurrent) (fun _ =>
      match site_get_current db with
      | Answers s => ret s
      | Fails type_name text => raise (OtherException type_name text)
      end)
  end.

Definition create_api_access_request (u : user) (status reason website : option string)
    (s : site) : M unit :=
  let status := match status with None => DEFAULT_STATUS | Some x => x end in
  let website := match website with None => DEFAULT_WEBSITE | Some x => x end in
  let reason := match reason with None => DEFAULT_REASON | Some x => x end in
  let r := mk_api_access_request u status website reason s in
  bind (emit (RequestCreate r)) (fun _ =>
  match request_create db r with
  | Answers _ =>
      emit (LogInfo ("Created ApiAccessRequest for user " ++ username u))
  | Fails type_name text =>
      raise (CommandError
               ("Unable to create ApiAccessRequest for " ++ username u ++
                ". Exception is " ++ type_name ++ ": " ++ text))
  end).

Definition create_api_access_config : M unit :=
  bind (emit ConfigGetOrCreate) (fun _ =>
  match config_get_or_create db with
  | Answers created =>
      if created then emit (LogInfo "Created ApiAccessConfig")
      else emit (LogInfo "ApiAccessConfig already exists")
  | Fails type_name text =>
      raise (CommandError
               ("Unable to create ApiAccessConfig. Exception is " ++
                type_name ++ ": " ++ text))
  end).

Definition handle (o : options) : M unit :=
  bind (get_user (opt_username o)) (fun u =>
  bind (get_site (opt_site_name o)) (fun s =>
  bind (create_api_access_request u (opt_status o) (opt_reason o) (opt_website o) s)
    (fun _ =>
  if opt_create_config o then create_api_access_config else ret tt))).

End Command.

(** The rows the command asked to create, oldest first. *)
Fixpoint requests_created (t : list event) : list api_access_request :=
  match t with
  | [] => []
  | RequestCreate r :: t' => r :: requests_created t'
  | _ :: t' => requests_created t'
  end.

(** Number of [get_or_create] calls for the configuration. *)
Fixpoint config_calls (t : list event) : nat :=
  match t with
  | [] => 0%nat
  | ConfigGetOrCreate :: t' => S (config_calls t')
  | _ :: t' => config_calls t'
  end.

(** The value an option stands for: the default when it is [None]. *)
Definition or_default (given : option string) (default : string) : string :=
  match given with
  | None => default
  | Some x => x
  end.

(** The site the command is to use, by [--site-name]: the first site of
    that name, or the current site when the name is missing or empty. *)
Definition wanted_site (db : managers) (site_name : option string) : answer (option site) :=
  match site_name with
  | Some (String c rest as given) => site_filter_first db given
  | _ => match site_get_current db with
         | Answers s => Answers (Some s)
         | Fails type_name text => Fails type_name text
         end
  end.

(** Managers over an empty user table. *)
Definition no_users : managers :=
  mk_managers (fun _ => UserDoesNotExist)
              (fun _ => Answers None)
              (Answers (mk_site "example.com" "example"))
              (fun _ => Answers tt)
              (Answers true).

(** Managers that find every user and the current site, create requests,
    and fail on the configuration. *)
Definition config_fails : managers :=
  mk_managers (fun n => UserFound (mk_user n))
              (fun _ => Answers None)
              (Answers (mk_site "example.com" "example"))
              (fun _ => Answers tt)
              (Fails "OperationalError" "database is locked").

(** Managers whose every call fails: the database is down. *)
Definition db_down : managers :=
  mk_managers (fun _ => UserLookupFails "OperationalError" "server has gone away")
              (fun _ => Fails "OperationalError" "server has gone away")
              (Fails "OperationalError" "server has gone away")
              (fun _ => Fails "OperationalError" "server has gone away")
              (Fails "OperationalError" "server has gone away").

Definition example_options : options :=
  mk_options "staff" true None (Some "load test") None (Some "").

End ApiAccessRequestCommand.

(** The entries the describe answers of a run reported running, in the
    order the loop reads them: poll by poll ([queries] are the
    [InstanceIds] of the calls, one for each of [attempts]), and within a
    poll in the order of the answer. *)
Fixpoint reported_running_infos (ec2 : ec2_client) (attempts : list Z)
    (queries : list (list string)) : list instance_info :=
  match attempts, queries with
  | attempt :: attempts', q :: queries' =>
      match describe_instances ec2 attempt q with
      | DescribeOk rs => filter running_info (List.concat rs)
      | DescribeError _ => []
      end ++ reported_running_infos ec2 attempts' queries'
  | _, _ => []
  end.

(** A log record of the kinds a run writes before its polling loop ends:
    the opening record, the two records of a retry, and the count of
    workers still awaited.  None of them holds an instance identifier. *)
Definition counts_only (r : log_record) : Prop :=
  match r with
  | LogSpinningUp _ | LogHitError _ | LogSleepingFor _ | LogStillWaiting _ => True
  | LogFinished | LogBooted _ | LogIpList _ | LogIdList _ => False
  end.

(** A client that launches two instances and whose describe answers list
    the first only, running. *)
Definition omitting_client : ec2_client :=
  mk_ec2_client
    (fun _ _ => RunOk [mk_instance_info "i-1" "pending" (Some "10.0.0.1");
                       mk_instance_info "i-2" "pending" (Some "10.0.0.2")])
    (fun _ _ => DescribeOk [[mk_instance_info "i-1" "running" (Some "10.0.0.1")]])
    (fun _ => TerminateOk).

(** A client that launches [ids] and reports them all running at once,
    answering each describe call in the reverse of the query order. *)
Definition reversed_client (ids : list string) (addr : string -> string) : ec2_client :=
  mk_ec2_client
    (fun _ _ => RunOk (map (fun id => mk_instance_info id "pending" (Some (addr id))) ids))
    (fun _ q => DescribeOk [map (fun id => mk_instance_info id "running" (Some (addr id)))
                                (rev q)])
    (fun _ => TerminateOk).

(** A client that is throttled once, then launches one instance that is
    running from the 21st poll on. *)
Definition throttled_late_client : ec2_client :=
  flaky_client "RequestLimitExceeded" 1 ["i-1"] (fun _ => 20) example_addr.

(** ** Case analyses *)

Section Outcomes.

Variable ec2 : ec2_client.
Variable req : request.

(** The five ways an iteration can go. *)
Inductive tick_case (a : Z) (rest : list Z) (nr ips : list string) : Prop :=
| tick_describe_error (e : exn)
    (Hd : describe_instances ec2 a nr = DescribeError e)
    (Hw : wait_loop ec2 (a :: rest) nr ips = ([EvSleep 5; EvDescribeInstances nr], Raise e))
| tick_scan_error (rs : reservations) (e : exn)
    (Hd : describe_instances ec2 a nr = DescribeOk rs)
    (Hs : scan_reservations rs ips [] = Raise e)
    (Hw : wait_loop ec2 (a :: rest) nr ips = ([EvSleep 5; EvDescribeInstances nr], Raise e))
| tick_finished (rs : reservations) (ips' : list string)
    (Hd : describe_instances ec2 a nr = DescribeOk rs)
    (Hs : scan_reservations rs ips [] = Return (ips', []))
    (Hw : wait_loop ec2 (a :: rest) nr ips =
          ([EvSleep 5; EvDescribeInstances nr; EvLog LogFinished], Return (true, ips')))
| tick_still_waiting (rs : reservations) (ips' nr' : list string)
    (Hd : describe_instances ec2 a nr = DescribeOk rs)
    (Hs : scan_reservations rs ips [] = Return (ips', nr'))
    (Hne : nr' <> [])
    (Hw : wait_loop ec2 (a :: rest) nr ips =
          (EvSleep 5 :: EvDescribeInstances nr :: EvLog (LogStillWaiting (List.length nr'))
             :: fst (wait_loop ec2 rest nr' ips'),
           snd (wait_loop ec2 rest nr' ips'))).


(** The four ways [spin_up_workers] can end. *)
Inductive spin_up_case (t : trace) (r : result unit) : Prop :=
| case_launch_failed (t1 : trace) (e : exn)
    (Hl : launch_workers ec2 req = (t1, Raise e))
    (Ht : t = EvLog (LogSpinningUp (number_of_workers req)) :: t1)
    (Hr : r = Raise e)
| case_poll_failed (t1 t2 : trace) (ids : list string) (e : exn)
    (Hl : launch_workers ec2 req = (t1, Return ids))
    (Hw : wait_loop ec2 poll_attempts ids [] = (t2, Raise e))
    (Ht : t = EvLog (LogSpinningUp (number_of_workers req)) :: t1 ++ t2)
    (Hr : r = Raise e)
| case_timed_out (t1 t2 : trace) (ids ips : list string)
    (Hl : launch_workers ec2 req = (t1, Return ids))
    (Hw : wait_loop ec2 poll_attempts ids [] = (t2, Return (false, ips)))
    (Ht : t = EvLog (LogSpinningUp (number_of_workers req)) :: t1 ++ t2)
    (Hr : r = Raise timed_out)
| case_all_running (t1 t2 : trace) (ids ips : list string)
    (Hl : launch_workers ec2 req = (t1, Return ids))
    (Hw : wait_loop ec2 poll_attempts ids [] = (t2, Return (true, ips)))
    (Ht : t = EvLog (LogSpinningUp (number_of_workers req)) :: t1 ++ t2 ++
            [EvLog (LogBooted (number_of_workers req));
             EvLog (LogIpList (py_join "," ips)); EvWrite ip_list_file (py_join "," ips);
             EvLog (LogIdList (py_join "," ids)); EvWrite task_arn_file (py_join "," ids)])
    (Hr : r = Return tt).

End Outcomes.

(** * Properties *)

(** ** Traces and ranges *)

Lemma run_calls_app (t1 t2 : trace) :
  run_calls (t1 ++ t2) = (run_calls t1 + run_calls t2)%nat.
Proof.
  induction t1 as [|e t1 IH]; [reflexivity|].
  destruct e; simpl; rewrite IH; reflexivity.
Qed.

Lemma total_sleep_app (t1 t2 : trace) :
  total_sleep (t1 ++ t2) = total_sleep t1 + total_sleep t2.
Proof.
  induction t1 as [|e t1 IH]; [reflexivity|].
  destruct e; simpl; rewrite IH; lia.
Qed.

Lemma describe_queries_app (t1 t2 : trace) :
  describe_queries (t1 ++ t2) = describe_queries t1 ++ describe_queries t2.
Proof.
  induction t1 as [|e t1 IH]; [reflexivity|].
  destruct e; simpl; rewrite IH; reflexivity.
Qed.

Lemma files_written_app (t1 t2 : trace) :
  files_written (t1 ++ t2) = files_written t1 ++ files_written t2.
Proof.
  induction t1 as [|e t1 IH]; [reflexivity|].
  destruct e; simpl; rewrite IH; reflexivity.
Qed.

Lemma logged_app (t1 t2 : trace) :
  logged (t1 ++ t2) = logged t1 ++ logged t2.
Proof.
  induction t1 as [|e t1 IH]; [reflexivity|].
  destruct e; simpl; rewrite IH; reflexivity.
Qed.

Lemma py_range_nil (a b : Z) : b <= a -> py_range a b = [].
Proof.
  intros H. unfold py_range.
  replace (Z.to_nat (b - a)) with 0%nat by lia. reflexivity.
Qed.

Lemma py_range_cons (a b : Z) : a < b -> py_range a b = a :: py_range (a + 1) b.
Proof.
  intros H. unfold py_range.
  replace (Z.to_nat (b - a)) with (S (Z.to_nat (b - (a + 1)))) by lia.
  cbn [seq map]. f_equal; [lia|].
  rewrite <- seq_shift, map_map.
  apply map_ext. intros i. lia.
Qed.

Lemma py_range_length (a b : Z) : List.length (py_range a b) = Z.to_nat (b - a).
Proof. unfold py_range. rewrite length_map, length_seq. reflexivity. Qed.

Lemma py_range_In (a b x : Z) : In x (py_range a b) <-> a <= x < b.
Proof.
  unfold py_range. rewrite in_map_iff. split.
  - intros (i & <- & Hi). apply in_seq in Hi. lia.
  - intros H. exists (Z.to_nat (x - a)). split; [lia|].
    apply in_seq. lia.
Qed.

(** ** split and join *)

Lemma py_split_not_nil (s : string) : py_split comma s <> [].
Proof.
  induction s as [|c s IH]; cbn [py_split]; [discriminate|].
  destruct (Ascii.eqb c comma); [discriminate|].
  destruct (py_split comma s); [contradiction|discriminate].
Qed.

Lemma py_split_comma_free (s : string) : has_comma s = false -> py_split comma s = [s].
Proof.
  induction s as [|c s IH]; cbn [py_split has_comma]; intros H; [reflexivity|].
  apply orb_false_iff in H. destruct H as [Hc Hs].
  rewrite Hc, (IH Hs). reflexivity.
Qed.

Lemma py_split_append (x s : string) :
  has_comma x = false ->
  py_split comma (x ++ "," ++ s)%string = x :: py_split comma s.
Proof.
  change ("," ++ s)%string with (String comma s).
  induction x as [|c x IH]; cbn [py_split has_comma String.append]; intros H.
  - rewrite Ascii.eqb_refl. reflexivity.
  - apply orb_false_iff in H. destruct H as [Hc Hx].
    rewrite Hc, (IH Hx). reflexivity.
Qed.

(** Splitting the join of comma-free entries gives the entries back. *)
Lemma py_split_join (l : list string) :
  l <> [] -> Forall (fun s => has_comma s = false) l ->
  py_split comma (py_join "," l) = l.
Proof.
  induction l as [|x l IH]; intros Hne Hall; [contradiction|].
  inversion Hall as [|x' l' Hx Hl]; subst.
  destruct l as [|y l].
  - cbn. apply py_split_comma_free, Hx.
  - unfold py_join in *.
    change (String.concat "," (x :: y :: l))
      with (x ++ "," ++ String.concat "," (y :: l))%string.
    rewrite py_split_append by exact Hx.
    rewrite IH; [reflexivity|discriminate|exact Hl].
Qed.

(** ** The retry loop *)

Section Launch.

Variable ec2 : ec2_client.
Variable req : request.

(** One iteration of the retry loop, by the outcome of the call. *)
Lemma run_loop_ok (retry : Z) (rest : list Z) (insts : list instance_info) :
  run_instances ec2 retry req = RunOk insts ->
  run_loop ec2 req (retry :: rest) = ([EvRunInstances req], Return (Some insts)).
Proof. intros H. cbn. rewrite H. reflexivity. Qed.

Lemma run_loop_other (retry : Z) (rest : list Z) (name : string) :
  run_instances ec2 retry req = RunOtherError name ->
  run_loop ec2 req (retry :: rest) = ([EvRunInstances req], Raise (OtherError name)).
Proof. intros H. cbn. rewrite H. reflexivity. Qed.

Lemma run_loop_last (rest : list Z) (code : string) :
  run_instances ec2 MAX_RUN_WORKER_RETRIES req = RunClientError code ->
  run_loop ec2 req (MAX_RUN_WORKER_RETRIES :: rest) = ([EvRunInstances req], Raise exhausted).
Proof. intros H. cbn [run_loop]. rewrite H, Z.eqb_refl. reflexivity. Qed.

Lemma run_loop_retry (retry : Z) (rest : list Z) (code : string) :
  run_instances ec2 retry req = RunClientError code ->
  retry <> MAX_RUN_WORKER_RETRIES ->
  run_loop ec2 req (retry :: rest) =
  (EvRunInstances req :: EvLog (LogHitError code) :: EvLog (LogSleepingFor (2 ^ retry))
     :: EvSleep (2 ^ retry) :: fst (run_loop ec2 req rest),
   snd (run_loop ec2 req rest)).
Proof.
  intros H Hne. cbn [run_loop]. rewrite H.
  apply Z.eqb_neq in Hne. rewrite Hne.
  unfold bind, emit. destruct (run_loop ec2 req rest) as [t r]. reflexivity.
Qed.

(** [k] failures with a [ClientError] from iteration [a] on, then a success
    on iteration [a + k <= MAX_RUN_WORKER_RETRIES]. *)
Lemma run_loop_fail_then_ok (k : nat) : forall (a : Z) (insts : list instance_info),
  a + Z.of_nat k <= MAX_RUN_WORKER_RETRIES ->
  (forall retry, a <= retry < a + Z.of_nat k ->
     exists code, run_instances ec2 retry req = RunClientError code) ->
  run_instances ec2 (a + Z.of_nat k) req = RunOk insts ->
  exists t,
    run_loop ec2 req (py_range a (MAX_RUN_WORKER_RETRIES + 1)) = (t, Return (Some insts)) /\
    run_calls t = S k /\
    total_sleep t = sum_Z (map (fun retry => 2 ^ retry) (py_range a (a + Z.of_nat k))) /\
    files_written t = [] /\ describe_queries t = [].
Proof.
  induction k as [|k IH]; intros a insts Hle Hfail Hok.
  - rewrite Z.add_0_r in *. rewrite py_range_cons by lia.
    rewrite (run_loop_ok _ _ _ Hok). eexists; split; [reflexivity|].
    rewrite py_range_nil by lia. repeat split.
  - destruct (Hfail a ltac:(lia)) as [code Hcode].
    rewrite py_range_cons by lia.
    rewrite (run_loop_retry _ _ _ Hcode) by lia.
    destruct (IH (a + 1) insts) as (t & Ht & Hcalls & Hsleep & Hfiles & Hq).
    + lia.
    + intros retry Hr. apply Hfail. lia.
    + rewrite <- Hok. f_equal. lia.
    + rewrite Ht. cbn [fst snd]. eexists; split; [reflexivity|].
      cbn [run_calls total_sleep files_written describe_queries].
      rewrite Hcalls, Hsleep, Hfiles, Hq. repeat split.
      rewrite (py_range_cons a) by lia. cbn [map sum_Z fold_right].
      replace (a + Z.of_nat (S k)) with (a + 1 + Z.of_nat k) by lia.
      reflexivity.
Qed.

(** A [ClientError] on every iteration from [a] to the last. *)
Lemma run_loop_always_fail (n : nat) : forall (a : Z),
  a + Z.of_nat n = MAX_RUN_WORKER_RETRIES ->
  (forall retry, a <= retry <= MAX_RUN_WORKER_RETRIES ->
     exists code, run_instances ec2 retry req = RunClientError code) ->
  exists t,
    run_loop ec2 req (py_range a (MAX_RUN_WORKER_RETRIES + 1)) = (t, Raise exhausted) /\
    run_calls t = S n /\
    total_sleep t = sum_Z (map (fun retry => 2 ^ retry) (py_range a MAX_RUN_WORKER_RETRIES)) /\
    last t (EvSleep 0) = EvRunInstances req /\
    files_written t = [] /\ describe_queries t = [].
Proof.
  induction n as [|n IH]; intros a Ha Hfail.
  - rewrite Z.add_0_r in Ha. subst a.
    destruct (Hfail MAX_RUN_WORKER_RETRIES ltac:(lia)) as [code Hcode].
    rewrite py_range_cons by lia. rewrite (run_loop_last _ _ Hcode).
    eexists; split; [reflexivity|]. rewrite py_range_nil by lia. repeat split.
  - destruct (Hfail a ltac:(lia)) as [code Hcode].
    rewrite py_range_cons by lia.
    rewrite (run_loop_retry _ _ _ Hcode) by lia.
    destruct (IH (a + 1)) as (t & Ht & Hcalls & Hsleep & Hlast & Hfiles & Hq).
    + lia.
    + intros retry Hr. apply Hfail. lia.
    + rewrite Ht. cbn [fst snd]. eexists; split; [reflexivity|].
      cbn [run_calls total_sleep files_written describe_queries].
      rewrite Hcalls, Hsleep, Hfiles, Hq. repeat split.
      * rewrite (py_range_cons a) by lia. reflexivity.
      * destruct t as [|e t]; [discriminate Hcalls|].
        cbn [last] in *. exact Hlast.
Qed.

(** Whatever the client answers, the retry loop opens no file and makes
    no describe call. *)
Lemma run_loop_trace (retries : list Z) :
  files_written (fst (run_loop ec2 req retries)) = [] /\
  describe_queries (fst (run_loop ec2 req retries)) = [].
Proof.
  induction retries as [|retry rest IH]; [split; reflexivity|].
  destruct (run_instances ec2 retry req) as [insts|code|name] eqn:Hrun.
  - rewrite (run_loop_ok _ _ _ Hrun). split; reflexivity.
  - destruct (Z.eq_dec retry MAX_RUN_WORKER_RETRIES) as [->|Hne].
    + rewrite (run_loop_last _ _ Hrun). split; reflexivity.
    + rewrite (run_loop_retry _ _ _ Hrun Hne). exact IH.
  - rewrite (run_loop_other _ _ _ Hrun). split; reflexivity.
Qed.

(** A response the loop ends with is the answer to one of its calls. *)
Lemma run_loop_response (retries : list Z) (t : trace) (insts : list instance_info) :
  run_loop ec2 req retries = (t, Return (Some insts)) ->
  exists retry, In retry retries /\ run_instances ec2 retry req = RunOk insts.
Proof.
  revert t. induction retries as [|retry rest IH]; intros t H; [discriminate H|].
  destruct (run_instances ec2 retry req) as [insts'|code|name] eqn:Hrun.
  - rewrite (run_loop_ok _ _ _ Hrun) in H. injection H as _ <-.
    exists retry. split; [left; reflexivity|exact Hrun].
  - destruct (Z.eq_dec retry MAX_RUN_WORKER_RETRIES) as [->|Hne].
    + rewrite (run_loop_last _ _ Hrun) in H. discriminate H.
    + rewrite (run_loop_retry _ _ _ Hrun Hne) in H.
      destruct (run_loop ec2 req rest) as [t' r'] eqn:Hrest. cbn [fst snd] in H.
      injection H as _ ->. destruct (IH _ eq_refl) as (retry' & Hin & Hok).
      exists retry'. split; [right; exact Hin|exact Hok].
  - rewrite (run_loop_other _ _ _ Hrun) in H. discriminate H.
Qed.

Lemma launch_workers_ok (t : trace) (insts : list instance_info) :
  run_loop ec2 req (py_range 1 (MAX_RUN_WORKER_RETRIES + 1)) = (t, Return (Some insts)) ->
  launch_workers ec2 req = (t, Return (map InstanceId insts)).
Proof.
  intros H. unfold launch_workers. rewrite H. cbn. rewrite app_nil_r. reflexivity.
Qed.

Lemma launch_workers_raise (t : trace) (e : exn) :
  run_loop ec2 req (py_range 1 (MAX_RUN_WORKER_RETRIES + 1)) = (t, Raise e) ->
  launch_workers ec2 req = (t, Raise e).
Proof. intros H. unfold launch_workers. rewrite H. reflexivity. Qed.

Lemma launch_workers_inv (t : trace) (ids : list string) :
  launch_workers ec2 req = (t, Return ids) ->
  exists retry insts,
    run_instances ec2 retry req = RunOk insts /\ ids = map InstanceId insts.
Proof.
  unfold launch_workers. intros H.
  destruct (run_loop ec2 req (py_range 1 (MAX_RUN_WORKER_RETRIES + 1)))
    as [t' [[insts|]|e]] eqn:Hloop; cbn in H; try discriminate H.
  injection H as _ <-.
  destruct (run_loop_response _ _ _ Hloop) as (retry & _ & Hok).
  exists retry, insts. split; [exact Hok|reflexivity].
Qed.

Lemma launch_workers_trace :
  files_written (fst (launch_workers ec2 req)) = [] /\
  describe_queries (fst (launch_workers ec2 req)) = [].
Proof.
  pose proof (run_loop_trace (py_range 1 (MAX_RUN_WORKER_RETRIES + 1))) as H.
  unfold launch_workers.
  destruct (run_loop ec2 req (py_range 1 (MAX_RUN_WORKER_RETRIES + 1)))
    as [t' [[insts|]|e]]; cbn in *; rewrite ?app_nil_r; exact H.
Qed.

(** C3.  If [run_instances] raises a [ClientError] (throttling or any other)
    on its first [k] calls, [k < 7], and succeeds on the next, the retry loop
    calls it exactly [k + 1] times and sleeps [2^1 + ... + 2^k] seconds in
    all: one sleep of [2 ** retry] after each failure, none after the
    success. *)
Theorem backoff_k_failures_then_success (k : Z) (insts : list instance_info) :
  0 <= k < MAX_RUN_WORKER_RETRIES ->
  (forall retry, 1 <= retry <= k ->
     exists code, run_instances ec2 retry req = RunClientError code) ->
  run_instances ec2 (k + 1) req = RunOk insts ->
  exists t,
    launch_workers ec2 req = (t, Return (map InstanceId insts)) /\
    Z.of_nat (run_calls t) = k + 1 /\
    total_sleep t = sum_Z (backoff_delays k).
Proof.
  intros Hk Hfail Hok.
  destruct (run_loop_fail_then_ok (Z.to_nat k) 1 insts) as (t & Ht & Hcalls & Hsleep & _).
  - lia.
  - intros retry Hr. apply Hfail. lia.
  - rewrite <- Hok. f_equal. lia.
  - exists t. split; [apply launch_workers_ok, Ht|]. split; [lia|].
    rewrite Hsleep. unfold backoff_delays. do 3 f_equal. lia.
Qed.

End Launch.

(** The sum [2^1 + ... + 2^k] in closed form. *)
Lemma sum_backoff_delays (k : Z) : 0 <= k -> sum_Z (backoff_delays k) = 2 ^ (k + 1) - 2.
Proof.
  intros Hk. pattern k. apply natlike_ind; [reflexivity| |exact Hk].
  clear k Hk. intros k Hk IH. unfold backoff_delays in *.
  replace (Z.succ k + 1) with (k + 1 + 1) by lia.
  assert (Hsplit : py_range 1 (k + 1 + 1) = py_range 1 (k + 1) ++ [k + 1]).
  { unfold py_range.
    replace (Z.to_nat (k + 1 + 1 - 1)) with (Z.to_nat (k + 1 - 1) + 1)%nat by lia.
    rewrite seq_app, map_app. cbn [seq map]. do 2 f_equal. lia. }
  rewrite Hsplit, map_app. unfold sum_Z in *. rewrite fold_right_app. cbn [map fold_right].
  assert (Hfold : forall l z, fold_right Z.add z l = fold_right Z.add 0 l + z).
  { induction l as [|x l IHl]; intros z; cbn [fold_right]; [lia|]. rewrite IHl. lia. }
  rewrite Hfold, IH.
  rewrite (Z.pow_add_r 2 (k + 1) 1) by lia. lia.
Qed.

(** ** The polling loop *)

Section Poll.

Variable ec2 : ec2_client.

Lemma scan_instances_spec (infos : list instance_info) :
  forall ips nr ips' nr',
  scan_instances infos ips nr = Return (ips', nr') ->
  nr' = nr ++ map InstanceId (filter (fun i => negb (running_info i)) infos) /\
  exists addrs,
    ips' = ips ++ addrs /\
    map PrivateIpAddress (filter running_info infos) = map Some addrs.
Proof.
  induction infos as [|info infos IH]; intros ips nr ips' nr' H; cbn [scan_instances] in H.
  - injection H as <- <-. rewrite app_nil_r. split; [reflexivity|].
    exists []. rewrite app_nil_r. split; reflexivity.
  - change (String.eqb (StateName info) "running") with (running_info info) in H.
    cbn [filter]. destruct (running_info info); cbn [negb].
    + destruct (PrivateIpAddress info) as [ip|] eqn:Hip; [|discriminate H].
      destruct (IH _ _ _ _ H) as (Hnr & addrs & Hips & Haddrs).
      split; [exact Hnr|]. exists (ip :: addrs). split.
      * rewrite Hips, <- app_assoc. reflexivity.
      * cbn [map]. rewrite Hip, Haddrs. reflexivity.
    + destruct (IH _ _ _ _ H) as (Hnr & addrs & Hips & Haddrs).
      split.
      * rewrite Hnr, <- app_assoc. reflexivity.
      * exists addrs. split; assumption.
Qed.

Lemma scan_reservations_spec (rs : reservations) :
  forall ips nr ips' nr',
  scan_reservations rs ips nr = Return (ips', nr') ->
  nr' = nr ++ map InstanceId (filter (fun i => negb (running_info i)) (List.concat rs)) /\
  exists addrs,
    ips' = ips ++ addrs /\
    map PrivateIpAddress (filter running_info (List.concat rs)) = map Some addrs.
Proof.
  induction rs as [|r rs IH]; intros ips nr ips' nr' H; cbn [scan_reservations] in H.
  - injection H as <- <-. rewrite app_nil_r. split; [reflexivity|].
    exists []. rewrite app_nil_r. split; reflexivity.
  - destruct (scan_instances r ips nr) as [[ips1 nr1]|e] eqn:Hr; [|discriminate H].
    destruct (scan_instances_spec _ _ _ _ _ Hr) as (Hnr1 & a1 & Hips1 & Ha1).
    destruct (IH _ _ _ _ H) as (Hnr & a2 & Hips & Ha2).
    cbn [List.concat]. rewrite !filter_app, !map_app. split.
    + rewrite Hnr, Hnr1, <- app_assoc. reflexivity.
    + exists (a1 ++ a2). split.
      * rewrite Hips, Hips1, <- app_assoc. reflexivity.
      * rewrite Ha1, Ha2, map_app. reflexivity.
Qed.

(** One iteration of the polling loop, by what the call answers. *)
Lemma wait_loop_describe_error (a : Z) (rest : list Z) (nr ips : list string) (e : exn) :
  describe_instances ec2 a nr = DescribeError e ->
  wait_loop ec2 (a :: rest) nr ips = ([EvSleep 5; EvDescribeInstances nr], Raise e).
Proof. intros H. cbn. rewrite H. reflexivity. Qed.

Lemma wait_loop_scan_error (a : Z) (rest : list Z) (nr ips : list string)
    (rs : reservations) (e : exn) :
  describe_instances ec2 a nr = DescribeOk rs ->
  scan_reservations rs ips [] = Raise e ->
  wait_loop ec2 (a :: rest) nr ips = ([EvSleep 5; EvDescribeInstances nr], Raise e).
Proof. intros H Hs. cbn. rewrite H. cbn. rewrite Hs. reflexivity. Qed.

Lemma wait_loop_finished (a : Z) (rest : list Z) (nr ips : list string)
    (rs : reservations) (ips' : list string) :
  describe_instances ec2 a nr = DescribeOk rs ->
  scan_reservations rs ips [] = Return (ips', []) ->
  wait_loop ec2 (a :: rest) nr ips =
  ([EvSleep 5; EvDescribeInstances nr; EvLog LogFinished], Return (true, ips')).
Proof. intros H Hs. cbn. rewrite H. cbn. rewrite Hs. reflexivity. Qed.

Lemma wait_loop_still_waiting (a : Z) (rest : list Z) (nr ips : list string)
    (rs : reservations) (ips' nr' : list string) :
  describe_instances ec2 a nr = DescribeOk rs ->
  scan_reservations rs ips [] = Return (ips', nr') ->
  nr' <> [] ->
  wait_loop ec2 (a :: rest) nr ips =
  (EvSleep 5 :: EvDescribeInstances nr :: EvLog (LogStillWaiting (List.length nr'))
     :: fst (wait_loop ec2 rest nr' ips'),
   snd (wait_loop ec2 rest nr' ips')).
Proof.
  intros H Hs Hne. cbn [wait_loop]. unfold call_describe_instances. rewrite H.
  cbn. rewrite Hs. destruct nr' as [|x nr']; [contradiction|].
  cbn. destruct (wait_loop ec2 rest (x :: nr') ips'). reflexivity.
Qed.

Lemma wait_loop_cases (a : Z) (rest : list Z) (nr ips : list string) :
  tick_case ec2 a rest nr ips.
Proof.
  destruct (describe_instances ec2 a nr) as [rs|e] eqn:Hd.
  - destruct (scan_reservations rs ips []) as [[ips' nr']|e] eqn:Hs.
    + destruct nr' as [|x nr'].
      * exact (tick_finished _ _ _ _ _ _ _ Hd Hs (wait_loop_finished _ _ _ _ _ _ Hd Hs)).
      * assert (Hne : x :: nr' <> []) by discriminate.
        exact (tick_still_waiting _ _ _ _ _ _ _ _ Hd Hs Hne
                 (wait_loop_still_waiting _ _ _ _ _ _ _ Hd Hs Hne)).
    + exact (tick_scan_error _ _ _ _ _ _ _ Hd Hs (wait_loop_scan_error _ _ _ _ _ _ Hd Hs)).
  - exact (tick_describe_error _ _ _ _ _ _ Hd (wait_loop_describe_error _ _ _ _ _ Hd)).
Qed.

(** The polling loop calls neither [run_instances] nor [open]; it sleeps
    five seconds before each describe call. *)
Lemma wait_loop_trace (attempts : list Z) : forall nr ips,
  files_written (fst (wait_loop ec2 attempts nr ips)) = [] /\
  run_calls (fst (wait_loop ec2 attempts nr ips)) = 0%nat /\
  total_sleep (fst (wait_loop ec2 attempts nr ips)) =
    5 * Z.of_nat (List.length (describe_queries (fst (wait_loop ec2 attempts nr ips)))) /\
  (List.length (describe_queries (fst (wait_loop ec2 attempts nr ips))) <= List.length attempts)%nat.
Proof.
  induction attempts as [|a rest IH]; intros nr ips.
  - cbn. repeat split; lia.
  - destruct (wait_loop_cases a rest nr ips); rewrite Hw;
      try (cbn; repeat split; lia).
    destruct (IH nr' ips') as (Hf & Hr & Hsl & Hlen).
    cbn [fst files_written run_calls total_sleep describe_queries List.length].
    rewrite Hf, Hr, Hsl. repeat split; lia.
Qed.

(** When the loop ends with every worker running, it has collected one
    address for each identifier it started with. *)
Lemma wait_loop_all_running_count (attempts : list Z) : forall nr ips t ips',
  answers_queried ec2 ->
  wait_loop ec2 attempts nr ips = (t, Return (true, ips')) ->
  List.length ips' = (List.length ips + List.length nr)%nat.
Proof.
  induction attempts as [|a rest IH]; intros nr ips t ips' Hans H; [discriminate H|].
  destruct (wait_loop_cases a rest nr ips); rewrite Hw in H; try discriminate H.
  - injection H as _ <-.
    destruct (scan_reservations_spec _ _ _ _ _ Hs) as (Hnr & addrs & -> & Haddrs).
    apply (f_equal (@List.length _)) in Hnr, Haddrs.
    cbn [app] in Hnr. rewrite !length_map in *. cbn [List.length] in Hnr.
    rewrite length_app, <- Haddrs.
    rewrite <- (Permutation_length (Hans _ _ _ Hd)), length_map.
    rewrite <- (filter_length running_info (List.concat rs)). lia.
  - destruct (wait_loop ec2 rest nr' ips'0) as [t' r'] eqn:Hrest. cbn [fst snd] in H.
    injection H as _ ->.
    rewrite (IH _ _ _ _ Hans Hrest).
    destruct (scan_reservations_spec _ _ _ _ _ Hs) as (Hnr & addrs & -> & Haddrs).
    apply (f_equal (@List.length _)) in Haddrs.
    cbn [app] in Hnr. rewrite Hnr. rewrite !length_map in *.
    rewrite length_app, <- Haddrs.
    rewrite <- (Permutation_length (Hans _ _ _ Hd)), length_map.
    rewrite <- (filter_length running_info (List.concat rs)). lia.
Qed.

(** Every collected address was reported by some describe call. *)
Lemma wait_loop_addresses (attempts : list Z) : forall nr ips t b ips',
  wait_loop ec2 attempts nr ips = (t, Return (b, ips')) ->
  forall ip, In ip ips' ->
    In ip ips \/
    exists a q rs info,
      describe_instances ec2 a q = DescribeOk rs /\ In info (List.concat rs) /\
      PrivateIpAddress info = Some ip.
Proof.
  assert (Hscan : forall a nr rs ips ips1 nr1,
            describe_instances ec2 a nr = DescribeOk rs ->
            scan_reservations rs ips [] = Return (ips1, nr1) ->
            forall ip, In ip ips1 ->
              In ip ips \/
              exists a q rs info,
                describe_instances ec2 a q = DescribeOk rs /\ In info (List.concat rs) /\
                PrivateIpAddress info = Some ip).
  { intros a nr rs ips ips1 nr1 Hd Hs ip Hip.
    destruct (scan_reservations_spec _ _ _ _ _ Hs) as (_ & addrs & -> & Haddrs).
    apply in_app_or in Hip. destruct Hip as [Hip|Hip]; [left; exact Hip|right].
    apply (in_map Some) in Hip. rewrite <- Haddrs in Hip.
    apply in_map_iff in Hip. destruct Hip as (info & Hinfo & Hin).
    apply filter_In in Hin. exists a, nr, rs, info. tauto. }
  induction attempts as [|a rest IH]; intros nr ips t b ips' H ip Hip.
  - injection H as _ _ <-. left. exact Hip.
  - destruct (wait_loop_cases a rest nr ips); rewrite Hw in H; try discriminate H.
    + injection H as _ _ <-. eapply Hscan; eauto.
    + destruct (wait_loop ec2 rest nr' ips'0) as [t' r'] eqn:Hrest. cbn [fst snd] in H.
      injection H as _ ->.
      destruct (IH _ _ _ _ _ Hrest ip Hip) as [Hin|Hex]; [|right; exact Hex].
      eapply Hscan; eauto.
Qed.

(** *** Which identifiers are queried *)

Lemma filter_filter_implied {A : Type} (p q : A -> bool) (l : list A) :
  (forall x, p x = true -> q x = true) -> filter p (filter q l) = filter p l.
Proof.
  intros Hpq. induction l as [|x l IH]; [reflexivity|].
  cbn [filter]. destruct (q x) eqn:Hq; cbn [filter].
  - rewrite IH. reflexivity.
  - destruct (p x) eqn:Hp; [|exact IH].
    rewrite (Hpq x Hp) in Hq. discriminate Hq.
Qed.

Lemma filter_nothing {A : Type} (p : A -> bool) (l : list A) :
  (forall x, In x l -> p x = false) -> filter p l = [].
Proof.
  induction l as [|x l IH]; intros H; [reflexivity|].
  cbn [filter]. rewrite (H x (or_introl eq_refl)). apply IH.
  intros y Hy. apply H. right. exact Hy.
Qed.









(** When the loop ends with every worker running, each identifier it
    started with was reported running by the answer to a call that queried
    it. *)
Lemma wait_loop_all_observed (attempts : list Z) : forall nr ips t ips',
  answers_queried ec2 ->
  wait_loop ec2 attempts nr ips = (t, Return (true, ips')) ->
  forall id, In id nr ->
  exists i a q,
    nth_error attempts i = Some a /\ nth_error (describe_queries t) i = Some q /\
    reported_running ec2 a q id.
Proof.
  induction attempts as [|a rest IH]; intros nr ips t ips' Hans H id Hid; [discriminate H|].
  assert (Hinfo : forall rs, describe_instances ec2 a nr = DescribeOk rs ->
            exists info, In info (List.concat rs) /\ InstanceId info = id).
  { intros rs Hd.
    apply (Permutation_in _ (Permutation_sym (Hans _ _ _ Hd))) in Hid.
    apply in_map_iff in Hid. destruct Hid as (info & Hi & Hin). eauto. }
  destruct (wait_loop_cases a rest nr ips); rewrite Hw in H; try discriminate H.
  - injection H as <- _.
    destruct (Hinfo _ Hd) as (info & Hin & Hi).
    exists 0%nat, a, nr. repeat split. exists rs, info. repeat split; auto.
    destruct (running_info info) eqn:Hrun; [reflexivity|exfalso].
    destruct (scan_reservations_spec _ _ _ _ _ Hs) as (Hnr & _). cbn [app] in Hnr.
    assert (Hin' : In id (map InstanceId
              (filter (fun i => negb (running_info i)) (List.concat rs)))).
    { rewrite <- Hi. apply in_map, filter_In. split; [exact Hin|]. rewrite Hrun. reflexivity. }
    rewrite <- Hnr in Hin'. contradiction.
  - destruct (wait_loop ec2 rest nr' ips'0) as [t' r'] eqn:Hrest. cbn [fst snd] in H.
    injection H as <- ->.
    destruct (Hinfo _ Hd) as (info & Hin & Hi).
    destruct (running_info info) eqn:Hrun.
    + exists 0%nat, a, nr. repeat split. exists rs, info. auto.
    + destruct (scan_reservations_spec _ _ _ _ _ Hs) as (Hnr & _). cbn [app] in Hnr.
      assert (Hin' : In id nr').
      { rewrite Hnr, <- Hi. apply in_map, filter_In. split; [exact Hin|].
        rewrite Hrun. reflexivity. }
      destruct (IH _ _ _ _ Hans Hrest id Hin') as (i & a' & q & Ha & Hq & Hrep).
      exists (S i), a', q. auto.
Qed.

End Poll.

Lemma nth_error_py_range (a b : Z) (i : nat) (x : Z) :
  nth_error (py_range a b) i = Some x -> x = a + Z.of_nat i.
Proof.
  unfold py_range. rewrite nth_error_map.
  destruct (nth_error (seq 0 (Z.to_nat (b - a))) i) as [k|] eqn:Hk; [|discriminate].
  cbn. intros [= <-].
  assert (Hi : (i < List.length (seq 0 (Z.to_nat (b - a))))%nat).
  { apply nth_error_Some. congruence. }
  rewrite (nth_error_nth' _ 0%nat Hi) in Hk. injection Hk as <-.
  rewrite length_seq in Hi. rewrite seq_nth by exact Hi. reflexivity.
Qed.

Lemma nth_error_py_range_Some (a b : Z) (i : nat) :
  (i < Z.to_nat (b - a))%nat -> nth_error (py_range a b) i = Some (a + Z.of_nat i).
Proof.
  intros Hi.
  destruct (nth_error (py_range a b) i) as [x|] eqn:Hx.
  - rewrite (nth_error_py_range _ _ _ _ Hx). reflexivity.
  - exfalso. revert Hx. apply nth_error_Some. rewrite py_range_length. exact Hi.
Qed.

(** ** Polling a scheduled client *)

Section Scheduled.

Variable ids0 : list string.
Variable ready_at : string -> Z.
Variable addr : string -> string.

Lemma scheduled_info_running (a : Z) (id : string) :
  running_info (scheduled_info ready_at addr a id) = (ready_at id <=? a).
Proof.
  unfold running_info, scheduled_info. cbn.
  destruct (ready_at id <=? a); reflexivity.
Qed.

Lemma scheduled_answers_queried : answers_queried (scheduled_client ids0 ready_at addr).
Proof.
  intros a q rs H. cbn in H. injection H as <-.
  cbn [List.concat]. rewrite app_nil_r, map_map. cbn.
  rewrite map_id. apply Permutation_refl.
Qed.

Lemma scan_scheduled (a : Z) (q : list string) : forall ips nr,
  scan_instances (map (scheduled_info ready_at addr a) q) ips nr =
  Return (ips ++ map addr (filter (fun id => ready_at id <=? a) q),
          nr ++ filter (fun id => negb (ready_at id <=? a)) q).
Proof.
  induction q as [|id q IH]; intros ips nr; cbn [map scan_instances filter].
  - rewrite !app_nil_r. reflexivity.
  - change (String.eqb (StateName (scheduled_info ready_at addr a id)) "running")
      with (running_info (scheduled_info ready_at addr a id)).
    rewrite scheduled_info_running.
    destruct (ready_at id <=? a); cbn [negb PrivateIpAddress scheduled_info map].
    + rewrite IH, <- app_assoc. reflexivity.
    + rewrite IH, <- app_assoc. reflexivity.
Qed.

Lemma order_from_nil (a b : Z) : order_from ready_at a b [] = [].
Proof.
  unfold order_from. induction (py_range a b) as [|x l IH]; [reflexivity|].
  cbn. exact IH.
Qed.

Lemma order_from_empty_range (a b : Z) (nr : list string) :
  b <= a -> order_from ready_at a b nr = [].
Proof. intros H. unfold order_from. rewrite py_range_nil by exact H. reflexivity. Qed.

(** Identifiers first seen at poll [a] are not seen first at a later poll. *)
Lemma order_from_later (a a' b : Z) (nr : list string) :
  a < a' ->
  order_from ready_at a' b (filter (fun id => negb (first_poll ready_at id =? a)) nr) =
  order_from ready_at a' b nr.
Proof.
  intros Ha. unfold order_from.
  assert (Hall : forall x, In x (py_range a' b) -> a < x).
  { intros x Hx. apply py_range_In in Hx. lia. }
  induction (py_range a' b) as [|x l IH]; [reflexivity|].
  cbn [flat_map]. rewrite IH by (intros y Hy; apply Hall; right; exact Hy).
  f_equal. apply filter_filter_implied. intros id Hid.
  apply Z.eqb_eq in Hid. apply negb_true_iff, Z.eqb_neq.
  specialize (Hall x (or_introl eq_refl)). lia.
Qed.

Lemma order_from_step (a b : Z) (nr : list string) :
  a < b ->
  order_from ready_at a b nr =
  filter (fun id => first_poll ready_at id =? a) nr ++
  order_from ready_at (a + 1) b (filter (fun id => negb (first_poll ready_at id =? a)) nr).
Proof.
  intros Hab. rewrite order_from_later by lia.
  unfold order_from. rewrite (py_range_cons a b Hab). reflexivity.
Qed.

(** What one poll of a scheduled client leaves: the addresses of the
    queried instances that are running, and the identifiers of the others,
    both in query order. *)
Lemma scheduled_scan (a : Z) (nr ips : list string) (rs : reservations) :
  describe_instances (scheduled_client ids0 ready_at addr) a nr = DescribeOk rs ->
  scan_reservations rs ips [] =
  Return (ips ++ map addr (filter (fun id => ready_at id <=? a) nr),
          filter (fun id => negb (ready_at id <=? a)) nr).
Proof.
  intros Hd. cbn in Hd. injection Hd as <-.
  cbn [scan_reservations]. rewrite scan_scheduled. reflexivity.
Qed.

Lemma scheduled_tick (a : Z) (nr ips : list string) (rs : reservations)
    (ips' nr' : list string) :
  describe_instances (scheduled_client ids0 ready_at addr) a nr = DescribeOk rs ->
  scan_reservations rs ips [] = Return (ips', nr') ->
  ips' = ips ++ map addr (filter (fun id => ready_at id <=? a) nr) /\
  nr' = filter (fun id => negb (ready_at id <=? a)) nr.
Proof.
  intros Hd Hs. rewrite (scheduled_scan _ _ _ _ Hd) in Hs.
  injection Hs as <- <-. split; reflexivity.
Qed.

(** From poll [a >= 0] on, an identifier not yet seen running is running at
    poll [a] exactly when [a] is its first poll. *)
Lemma running_at_first_poll (a : Z) (nr : list string) :
  0 <= a -> (forall id, In id nr -> a <= first_poll ready_at id) ->
  filter (fun id => ready_at id <=? a) nr =
    filter (fun id => first_poll ready_at id =? a) nr /\
  filter (fun id => negb (ready_at id <=? a)) nr =
    filter (fun id => negb (first_poll ready_at id =? a)) nr.
Proof.
  intros Ha Hnr.
  assert (Heq : forall id, In id nr -> (ready_at id <=? a) = (first_poll ready_at id =? a)).
  { intros id Hid. specialize (Hnr id Hid). unfold first_poll in *.
    destruct (Z.leb_spec (ready_at id) a), (Z.eqb_spec (Z.max 0 (ready_at id)) a);
      try reflexivity; lia. }
  split; apply filter_ext_in; intros id Hid; rewrite (Heq id Hid); reflexivity.
Qed.

(** The addresses the loop collects, in the order it collects them. *)
Lemma wait_loop_scheduled (n : nat) : forall a nr ips t ips',
  0 <= a -> (forall id, In id nr -> a <= first_poll ready_at id) ->
  wait_loop (scheduled_client ids0 ready_at addr) (py_range a (a + Z.of_nat n)) nr ips = (t, Return (true, ips')) ->
  ips' = ips ++ map addr (order_from ready_at a (a + Z.of_nat n) nr).
Proof.
  induction n as [|n IH]; intros a nr ips t ips' Ha Hnr H.
  - rewrite py_range_nil in H by lia. discriminate H.
  - rewrite py_range_cons in H by lia.
    rewrite order_from_step by lia.
    destruct (running_at_first_poll a nr Ha Hnr) as [Hrun Hnot].
    destruct (wait_loop_cases (scheduled_client ids0 ready_at addr) a (py_range (a + 1) (a + Z.of_nat (S n))) nr ips);
      rewrite Hw in H; try discriminate H.
    + injection H as _ <-.
      destruct (scheduled_tick _ _ _ _ _ _ Hd Hs) as [-> Hnil].
      rewrite <- Hnot, <- Hnil, order_from_nil, app_nil_r, Hrun. reflexivity.
    + destruct (scheduled_tick _ _ _ _ _ _ Hd Hs) as [-> ->].
      destruct (wait_loop (scheduled_client ids0 ready_at addr) (py_range (a + 1) (a + Z.of_nat (S n)))
                  (filter (fun id => negb (ready_at id <=? a)) nr)
                  (ips ++ map addr (filter (fun id => ready_at id <=? a) nr)))
        as [t' r'] eqn:Hrest.
      cbn [fst snd] in H. injection H as _ ->.
      replace (a + Z.of_nat (S n)) with (a + 1 + Z.of_nat n) in * by lia.
      apply IH in Hrest; [|lia|].
      * rewrite Hrest, <- Hnot, Hrun, <- app_assoc, map_app. reflexivity.
      * intros id Hid. rewrite Hnot in Hid. apply filter_In in Hid.
        destruct Hid as [Hid Hlater]. specialize (Hnr id Hid).
        apply negb_true_iff, Z.eqb_neq in Hlater. lia.
Qed.

(** *** When the collected order is the launch order *)

Lemma sorted_split (a : Z) (nr : list string) :
  launch_ordered ready_at nr ->
  (forall id, In id nr -> a <= first_poll ready_at id) ->
  filter (fun id => first_poll ready_at id =? a) nr ++
  filter (fun id => negb (first_poll ready_at id =? a)) nr = nr.
Proof.
  unfold launch_ordered. induction 1 as [|x l Hs IH Hx]; intros Hlo; [reflexivity|].
  cbn [filter]. destruct (Z.eqb_spec (first_poll ready_at x) a) as [Heq|Hne]; cbn [negb].
  - cbn [app]. f_equal. apply IH. intros id Hid. apply Hlo. right. exact Hid.
  - assert (Hnone : filter (fun id => first_poll ready_at id =? a) l = []).
    { apply filter_nothing. intros id Hid.
      rewrite Forall_forall in Hx. specialize (Hx id Hid).
      specialize (Hlo x (or_introl eq_refl)). apply Z.eqb_neq. lia. }
    assert (Hall : filter (fun id => negb (first_poll ready_at id =? a)) l = l).
    { specialize (IH (fun id Hid => Hlo id (or_intror Hid))).
      rewrite Hnone in IH. exact IH. }
    rewrite Hnone, Hall. reflexivity.
Qed.

Lemma launch_ordered_filter (p : string -> bool) (nr : list string) :
  launch_ordered ready_at nr -> launch_ordered ready_at (filter p nr).
Proof.
  unfold launch_ordered. induction 1 as [|x l Hs IH Hx]; cbn [filter]; [constructor|].
  destruct (p x); [|exact IH]. constructor; [exact IH|].
  rewrite Forall_forall in *. intros id Hid. apply filter_In in Hid. apply Hx, Hid.
Qed.

Lemma order_from_sorted (n : nat) : forall a nr,
  launch_ordered ready_at nr ->
  (forall id, In id nr -> a <= first_poll ready_at id < a + Z.of_nat n) ->
  order_from ready_at a (a + Z.of_nat n) nr = nr.
Proof.
  induction n as [|n IH]; intros a nr Hs Hb.
  - destruct nr as [|id nr]; [apply order_from_nil|].
    specialize (Hb id (or_introl eq_refl)). lia.
  - rewrite order_from_step by lia.
    replace (a + Z.of_nat (S n)) with (a + 1 + Z.of_nat n) by lia.
    rewrite IH.
    + apply sorted_split; [exact Hs|]. intros id Hid. apply Hb, Hid.
    + apply launch_ordered_filter, Hs.
    + intros id Hid. apply filter_In in Hid. destruct Hid as [Hid Hne].
      specialize (Hb id Hid). apply negb_true_iff, Z.eqb_neq in Hne. lia.
Qed.

End Scheduled.

(** ** spin_up_workers, phase by phase *)

Section SpinUp.

Variable ec2 : ec2_client.
Variable req : request.

Lemma spin_up_launch_raise (t : trace) (e : exn) :
  launch_workers ec2 req = (t, Raise e) ->
  spin_up_workers ec2 req = (EvLog (LogSpinningUp (number_of_workers req)) :: t, Raise e).
Proof. intros H. unfold spin_up_workers. cbn. rewrite H. reflexivity. Qed.

Lemma spin_up_wait_raise (t t2 : trace) (ids : list string) (e : exn) :
  launch_workers ec2 req = (t, Return ids) ->
  wait_loop ec2 poll_attempts ids [] = (t2, Raise e) ->
  spin_up_workers ec2 req =
  (EvLog (LogSpinningUp (number_of_workers req)) :: t ++ t2, Raise e).
Proof.
  intros H H2. unfold spin_up_workers, poll_attempts in *.
  unfold bind at 1 2. rewrite H. unfold bind at 1. rewrite H2. reflexivity.
Qed.

Lemma spin_up_timed_out (t t2 : trace) (ids ips : list string) :
  launch_workers ec2 req = (t, Return ids) ->
  wait_loop ec2 poll_attempts ids [] = (t2, Return (false, ips)) ->
  spin_up_workers ec2 req =
  (EvLog (LogSpinningUp (number_of_workers req)) :: t ++ t2, Raise timed_out).
Proof.
  intros H H2. unfold spin_up_workers, poll_attempts in *.
  unfold bind at 1 2. rewrite H. unfold bind at 1. rewrite H2.
  cbn. rewrite app_nil_r. reflexivity.
Qed.

Lemma spin_up_all_running (t t2 : trace) (ids ips : list string) :
  launch_workers ec2 req = (t, Return ids) ->
  wait_loop ec2 poll_attempts ids [] = (t2, Return (true, ips)) ->
  spin_up_workers ec2 req =
  (EvLog (LogSpinningUp (number_of_workers req)) :: t ++ t2 ++
     [EvLog (LogBooted (number_of_workers req));
      EvLog (LogIpList (py_join "," ips)); EvWrite ip_list_file (py_join "," ips);
      EvLog (LogIdList (py_join "," ids)); EvWrite task_arn_file (py_join "," ids)],
   Return tt).
Proof.
  intros H H2. unfold spin_up_workers, poll_attempts in *.
  unfold bind at 1 2. rewrite H. unfold bind at 1. rewrite H2. reflexivity.
Qed.

Lemma spin_up_cases (t : trace) (r : result unit) :
  spin_up_workers ec2 req = (t, r) -> spin_up_case ec2 req t r.
Proof.
  intros H.
  destruct (launch_workers ec2 req) as [t1 [ids|e]] eqn:Hl.
  - destruct (wait_loop ec2 poll_attempts ids []) as [t2 [[[|] ips]|e]] eqn:Hw.
    + rewrite (spin_up_all_running _ _ _ _ Hl Hw) in H. injection H as <- <-.
      eapply case_all_running; eauto.
    + rewrite (spin_up_timed_out _ _ _ _ Hl Hw) in H. injection H as <- <-.
      eapply case_timed_out; eauto.
    + rewrite (spin_up_wait_raise _ _ _ _ Hl Hw) in H. injection H as <- <-.
      eapply case_poll_failed; eauto.
  - rewrite (spin_up_launch_raise _ _ Hl) in H. injection H as <- <-.
    eapply case_launch_failed; eauto.
Qed.

Lemma files_written_phases (t1 t2 : trace) (ids : list string) (r : result (bool * list string)) :
  fst (launch_workers ec2 req) = t1 ->
  fst (wait_loop ec2 poll_attempts ids []) = t2 ->
  files_written (t1 ++ t2) = [].
Proof.
  intros <- <-. rewrite files_written_app.
  rewrite (proj1 (launch_workers_trace ec2 req)).
  rewrite (proj1 (wait_loop_trace ec2 poll_attempts ids [])). reflexivity.
Qed.

(** The describe calls and the sleeps of a whole run, by phase. *)
Lemma spin_up_polls (t : trace) (r : result unit) :
  spin_up_workers ec2 req = (t, r) ->
  (describe_queries t = [] /\ total_sleep t = total_sleep (fst (launch_workers ec2 req))) \/
  exists ids,
    snd (launch_workers ec2 req) = Return ids /\
    describe_queries t = describe_queries (fst (wait_loop ec2 poll_attempts ids [])) /\
    total_sleep t = total_sleep (fst (launch_workers ec2 req)) +
                    total_sleep (fst (wait_loop ec2 poll_attempts ids [])).
Proof.
  intros H.
  pose proof (launch_workers_trace ec2 req) as [_ Hq1].
  destruct (spin_up_cases _ _ H); rewrite Hl in *; cbn [fst snd] in *;
    [left|right; exists ids..]; subst t;
    cbn [describe_queries total_sleep];
    rewrite ?describe_queries_app, ?total_sleep_app, ?Hq1, ?Hw; cbn; auto.
  split; [reflexivity|]. split; [rewrite app_nil_r; reflexivity|lia].
Qed.



(** C4 as the code has it.  When every call of [run_instances] raises a
    [ClientError], [spin_up_workers] calls it exactly seven times, sleeps
    [2 + 4 + ... + 64] seconds (after failures one to six, not after the
    seventh), makes no describe call, writes no file, and raises
    [StandardError] with a fixed message: the message gives the retry limit
    and does not carry the error of the last call. *)
Theorem retries_exhausted :
  (forall retry, 1 <= retry <= MAX_RUN_WORKER_RETRIES ->
     exists code, run_instances ec2 retry req = RunClientError code) ->
  exists t,
    spin_up_workers ec2 req = (t, Raise exhausted) /\
    run_calls t = 7%nat /\
    total_sleep t = sum_Z (backoff_delays 6) /\
    last t (EvSleep 0) = EvRunInstances req /\
    describe_queries t = [] /\ files_written t = [].
Proof.
  intros Hfail.
  destruct (run_loop_always_fail ec2 req 6 1 eq_refl Hfail)
    as (t & Ht & Hcalls & Hsleep & Hlast & Hfiles & Hq).
  apply launch_workers_raise in Ht.
  rewrite (spin_up_launch_raise _ _ Ht). eexists; split; [reflexivity|].
  cbn [run_calls total_sleep describe_queries files_written].
  repeat split; auto.
  destruct t as [|e t]; [discriminate Hcalls|]. exact Hlast.
Qed.

End SpinUp.

(** ** Whole runs against a scheduled client *)

Section ScheduledRuns.

Variable ids0 : list string.
Variable ready_at : string -> Z.
Variable addr : string -> string.

Lemma launch_scheduled (req : request) :
  launch_workers (scheduled_client ids0 ready_at addr) req = ([EvRunInstances req], Return ids0).
Proof.
  unfold launch_workers. rewrite py_range_cons by (unfold MAX_RUN_WORKER_RETRIES; lia).
  rewrite (run_loop_ok (scheduled_client ids0 ready_at addr) req 1 _ _ eq_refl). cbn.
  rewrite map_map. cbn. rewrite map_id. reflexivity.
Qed.

(** An instance that is not running at any poll of the loop keeps the loop
    going to its last iteration. *)
Lemma wait_loop_never_ready (attempts : list Z) : forall nr ips id,
  In id nr -> (forall a, In a attempts -> a < ready_at id) ->
  exists t ips',
    wait_loop (scheduled_client ids0 ready_at addr) attempts nr ips = (t, Return (false, ips')) /\
    Forall (fun r => exists k, r = LogStillWaiting k) (logged t) /\
    List.length (describe_queries t) = List.length attempts /\
    total_sleep t = 5 * Z.of_nat (List.length attempts).
Proof.
  induction attempts as [|a rest IH]; intros nr ips id Hid Hlate.
  - exists [], ips. cbn. repeat split. constructor.
  - assert (Hstill : In id (filter (fun id => negb (ready_at id <=? a)) nr)).
    { apply filter_In. split; [exact Hid|].
      apply negb_true_iff, Z.leb_gt, Hlate. left. reflexivity. }
    destruct (wait_loop_cases (scheduled_client ids0 ready_at addr) a rest nr ips); try discriminate Hd.
    + rewrite (scheduled_scan _ _ _ _ _ _ _ Hd) in Hs. discriminate Hs.
    + destruct (scheduled_tick _ _ _ _ _ _ _ _ _ Hd Hs) as [_ Hnil].
      rewrite <- Hnil in Hstill. contradiction.
    + destruct (scheduled_tick _ _ _ _ _ _ _ _ _ Hd Hs) as [-> ->].
      destruct (IH _ (ips ++ map addr (filter (fun id => ready_at id <=? a) nr)) id Hstill)
        as (t & ips' & Ht & Hlog & Hlen & Hsl).
      { intros a' Ha'. apply Hlate. right. exact Ha'. }
      rewrite Hw, Ht. cbn [fst snd]. eexists _, ips'. split; [reflexivity|].
      cbn [logged describe_queries total_sleep List.length].
      repeat split.
      * constructor; [eexists; reflexivity|exact Hlog].
      * rewrite Hlen. reflexivity.
      * rewrite Hsl. lia.
Qed.

(** Against a scheduled client, which answers in query order: the address
    file lists the addresses by the poll that first saw the instance
    running, and within a poll in launch order; the two files agree
    position by position when no instance is seen running at an earlier
    poll than one launched before it. *)
Theorem artifacts_in_readiness_order (req : request) (t : trace) :
  spin_up_workers (scheduled_client ids0 ready_at addr) req = (t, Return tt) ->
  files_written t =
    [(ip_list_file, py_join "," (map addr (readiness_order ready_at ids0)));
     (task_arn_file, py_join "," ids0)] /\
  (launch_ordered ready_at ids0 -> readiness_order ready_at ids0 = ids0).
Proof.
  intros H.
  destruct (spin_up_cases _ _ _ _ H); try discriminate Hr.
  rewrite launch_scheduled in Hl. injection Hl as <- <-.
  assert (Hips : ips = map addr (readiness_order ready_at ids0)).
  { apply (wait_loop_scheduled ids0 ready_at addr 20 0 ids0 [] t2 ips); [lia| |exact Hw].
    intros id _. unfold first_poll. lia. }
  split.
  - rewrite Ht, Hips. cbn [files_written app]. rewrite files_written_app.
    pose proof (wait_loop_trace (scheduled_client ids0 ready_at addr) poll_attempts ids0 []) as (Hf & _).
    rewrite Hw in Hf. cbn [fst] in Hf. rewrite Hf. reflexivity.
  - intros Hsorted. apply (order_from_sorted ready_at 20 0 ids0 Hsorted).
    intros id Hid. split; [unfold first_poll; lia|].
    destruct (wait_loop_all_observed (scheduled_client ids0 ready_at addr) _ _ _ _ _ (scheduled_answers_queried ids0 ready_at addr) Hw id Hid)
      as (i & a & q & Ha & _ & rs & info & Hd & Hin & Hinfo & Hrun).
    apply nth_error_In, py_range_In in Ha.
    cbn in Hd. injection Hd as <-. cbn [List.concat] in Hin. rewrite app_nil_r in Hin.
    apply in_map_iff in Hin. destruct Hin as (id' & <- & _).
    rewrite (scheduled_info_running ready_at addr) in Hrun. cbn in Hinfo. subst id'.
    apply Z.leb_le in Hrun. unfold first_poll. cbn in Ha. lia.
Qed.

(** Against a scheduled client with an instance that is not running at
    any poll of the loop, the run makes every describe call of the loop,
    writes no file and raises the timeout; besides the opening record its
    log holds only counts of workers still awaited. *)
Theorem timeout_reports_no_identifier (req : request) (id : string) :
  In id ids0 ->
  WORKER_RUN_TIMEOUT_MINUTES * 2 <= ready_at id ->
  exists t,
    spin_up_workers (scheduled_client ids0 ready_at addr) req = (t, Raise timed_out) /\
    Forall (fun r => r = LogSpinningUp (number_of_workers req) \/
                     exists k, r = LogStillWaiting k) (logged t) /\
    List.length (describe_queries t) = 20%nat /\
    files_written t = [].
Proof.
  intros Hid Hlate.
  destruct (wait_loop_never_ready poll_attempts ids0 [] id Hid)
    as (t2 & ips & Hw & Hlog & Hlen & _).
  { intros a Ha. apply py_range_In in Ha. lia. }
  rewrite (spin_up_timed_out _ _ _ _ _ _ (launch_scheduled req) Hw).
  eexists; split; [reflexivity|].
  cbn [logged describe_queries files_written app].
  pose proof (wait_loop_trace (scheduled_client ids0 ready_at addr) poll_attempts ids0 []) as (Hf & _).
  rewrite Hw in Hf. cbn [fst] in Hf.
  repeat split.
  - constructor; [left; reflexivity|].
    eapply Forall_impl; [|exact Hlog]. intros r Hr. right. exact Hr.
  - rewrite Hlen. reflexivity.
  - exact Hf.
Qed.

(** A scheduled client keeps the EC2 contract when its identifiers and
    addresses are well-formed and it launches the requested number. *)
Lemma scheduled_contract (req : request) :
  Forall valid_entry ids0 ->
  (forall id, valid_entry (addr id)) ->
  Z.of_nat (List.length ids0) = number_of_workers req ->
  provider_contract (scheduled_client ids0 ready_at addr) req.
Proof.
  intros Hids Haddr Hlen. constructor.
  - intros retry insts H. cbn in H. injection H as <-. rewrite length_map. exact Hlen.
  - intros retry insts H. cbn in H. injection H as <-.
    rewrite map_map. cbn. rewrite map_id. exact Hids.
  - apply scheduled_answers_queried.
  - intros a q rs info ip Hd Hin Hip. cbn in Hd. injection Hd as <-.
    cbn [List.concat] in Hin. rewrite app_nil_r in Hin.
    apply in_map_iff in Hin. destruct Hin as (id & <- & _).
    cbn in Hip. injection Hip as <-. apply Haddr.
Qed.

End ScheduledRuns.

Lemma example_addr_valid (id : string) : valid_entry (example_addr id).
Proof.
  unfold example_addr.
  destruct (String.eqb id "i-1"); [split; [discriminate|reflexivity]|].
  destruct (String.eqb id "i-2"); split; (discriminate || reflexivity).
Qed.

(** ** Runs on concrete inputs *)

(** C2, refuted as stated: with two workers of which the second is running
    one poll before the first, the run succeeds and the address file starts
    with the address of the second worker, while the identifier file starts
    with the identifier of the first. *)
Lemma artifacts_misaligned :
  ~ (forall ids ready_at addr req t,
       spin_up_workers (scheduled_client ids ready_at addr) req = (t, Return tt) ->
       files_written t =
         [(ip_list_file, py_join "," (map addr ids)); (task_arn_file, py_join "," ids)]).
Proof.
  intros H.
  specialize (H ["i-1"; "i-2"] (fun id => if String.eqb id "i-1" then 1 else 0)
                example_addr (example_request 2) _ eq_refl).
  vm_compute in H. discriminate H.
Qed.

Lemma artifacts_in_readiness_order_witness :
  files_written (fst (spin_up_workers second_first (example_request 2))) =
    [(ip_list_file, "10.0.0.2,10.0.0.1"); (task_arn_file, "i-1,i-2")].
Proof.
  apply (artifacts_in_readiness_order ["i-1"; "i-2"]
           (fun id => if String.eqb id "i-1" then 1 else 0) example_addr
           (example_request 2)).
  reflexivity.
Defined.

Lemma backoff_k_failures_then_success_witness :
  exists t,
    launch_workers (flaky_client "RequestLimitExceeded" 3 ["i-1"] (fun _ => 0) example_addr)
      (example_request 1) = (t, Return ["i-1"]) /\
    Z.of_nat (run_calls t) = 3 + 1 /\
    total_sleep t = 2 + 4 + 8.
Proof.
  apply (backoff_k_failures_then_success
           (flaky_client "RequestLimitExceeded" 3 ["i-1"] (fun _ => 0) example_addr)
           (example_request 1) 3
           [mk_instance_info "i-1" "pending" (Some "10.0.0.1")]).
  - unfold MAX_RUN_WORKER_RETRIES. lia.
  - intros retry Hr. exists "RequestLimitExceeded". cbn.
    destruct (Z.leb_spec retry 3); [reflexivity|lia].
  - reflexivity.
Defined.

(** C4, refuted as stated: the error raised after the seventh failure is
    the same whatever error the calls failed with, so nothing recovers the
    last underlying error from it. *)
Lemma exhausted_error_hides_cause :
  ~ (exists recover : exn -> string,
       forall code t e,
         spin_up_workers (failing_client code) (example_request 2) = (t, Raise e) ->
         recover e = code).
Proof.
  intros [recover H].
  pose proof (H "RequestLimitExceeded" _ _ eq_refl) as H1.
  pose proof (H "Throttling" _ _ eq_refl) as H2.
  vm_compute in H1, H2. rewrite H1 in H2. discriminate H2.
Qed.

Lemma retries_exhausted_witness :
  exists t,
    spin_up_workers (failing_client "RequestLimitExceeded") (example_request 2) =
      (t, Raise exhausted) /\
    run_calls t = 7%nat /\
    total_sleep t = 2 + 4 + 8 + 16 + 32 + 64 /\
    last t (EvSleep 0) = EvRunInstances (example_request 2) /\
    describe_queries t = [] /\ files_written t = [].
Proof.
  apply (retries_exhausted (failing_client "RequestLimitExceeded") (example_request 2)).
  intros retry _. exists "RequestLimitExceeded". reflexivity.
Defined.

(** C5 on the code: a [ClientError] that is not a throttling error, here an
    unknown image, is handled like throttling.  After the first call fails
    with it the loop logs, sleeps two seconds and calls [run_instances]
    again; when every call fails with it, the loop makes all seven calls,
    sleeps 126 seconds and reports throttling. *)
Theorem non_throttling_error_is_retried :
  launch_workers (flaky_client "InvalidAMIID.NotFound" 1 ["i-1"] (fun _ => 0) example_addr)
    (example_request 1) =
    ([EvRunInstances (example_request 1);
      EvLog (LogHitError "InvalidAMIID.NotFound"); EvLog (LogSleepingFor 2); EvSleep 2;
      EvRunInstances (example_request 1)],
     Return ["i-1"]) /\
  snd (spin_up_workers (failing_client "InvalidAMIID.NotFound") (example_request 1)) =
    Raise exhausted /\
  run_calls (fst (spin_up_workers (failing_client "InvalidAMIID.NotFound")
                    (example_request 1))) = 7%nat /\
  total_sleep (fst (spin_up_workers (failing_client "InvalidAMIID.NotFound")
                      (example_request 1))) = 126.
Proof. repeat split. Qed.

(** C6 on the code: the loop polls [WORKER_RUN_TIMEOUT_MINUTES * 2 = 20]
    times, five seconds apart.  A worker that is running 105 seconds after
    the launch is given up after 20 describe calls and 100 seconds of
    sleep, a sixth of the ten minutes the constant names. *)
Theorem polling_gives_up_after_100_seconds :
  snd (spin_up_workers (late_worker "i-1") (example_request 1)) = Raise timed_out /\
  List.length (describe_queries
    (fst (spin_up_workers (late_worker "i-1") (example_request 1)))) = 20%nat /\
  total_sleep (fst (spin_up_workers (late_worker "i-1") (example_request 1))) = 100 /\
  100 < WORKER_RUN_TIMEOUT_MINUTES * 60 /\
  List.length poll_attempts = 20%nat /\
  Z.of_nat (List.length poll_attempts) <> WORKER_RUN_TIMEOUT_MINUTES * 60 / 5.
Proof. repeat split; try reflexivity. discriminate. Qed.

(** C7, refuted as stated: two runs that time out on different identifiers
    raise the same error and log the same records, so nothing recovers the
    identifiers from what the run reports. *)
Lemma timeout_hides_identifiers :
  ~ (exists names : exn -> list log_record -> list string,
       forall id t e,
         spin_up_workers (late_worker id) (example_request 1) = (t, Raise e) ->
         names e (logged t) = [id]).
Proof.
  intros [names H].
  pose proof (H "i-1" _ _ eq_refl) as H1.
  pose proof (H "i-2" _ _ eq_refl) as H2.
  vm_compute in H1, H2. rewrite H1 in H2. discriminate H2.
Qed.

Lemma timeout_reports_no_identifier_witness :
  exists t,
    spin_up_workers (late_worker "i-1") (example_request 1) = (t, Raise timed_out) /\
    Forall (fun r => r = LogSpinningUp 1 \/ exists k, r = LogStillWaiting k) (logged t) /\
    List.length (describe_queries t) = 20%nat /\
    files_written t = [].
Proof.
  apply (timeout_reports_no_identifier ["i-1"] (fun _ => 20) example_addr
           (example_request 1) "i-1").
  - left. reflexivity.
  - unfold WORKER_RUN_TIMEOUT_MINUTES. lia.
Defined.



(** ** terminate_workers *)

(** C8, refuted as stated: called with the empty string, [terminate_workers]
    returns normally after one [terminate_instances] call. *)
Lemma empty_list_reaches_provider :
  terminate_workers three_workers (Some "") =
    ([EvTerminateInstances [""]], Return tt) /\
  ~ rejected_before_provider (terminate_workers three_workers (Some "")).
Proof.
  split; [reflexivity|]. intros [Hcalls _]. discriminate Hcalls.
Qed.

(** C8 as the code has it.  [terminate_workers] validates nothing: for every
    string it makes exactly one [terminate_instances] call, with the list
    the string splits into at commas; that list is never empty, and for the
    empty string it is the list holding one empty identifier.  The outcome
    is the client's.  Only a missing argument ends the call before the
    provider is reached. *)
Theorem terminate_workers_always_calls (ec2 : ec2_client) (s : string) :
  terminate_calls (fst (terminate_workers ec2 (Some s))) = [py_split comma s] /\
  py_split comma s <> [] /\
  py_split comma "" = [""] /\
  snd (terminate_workers ec2 (Some s)) =
    match terminate_instances ec2 (py_split comma s) with
    | TerminateOk => Return tt
    | TerminateError e => Raise e
    end /\
  rejected_before_provider (terminate_workers ec2 None).
Proof.
  split; [|split; [|split; [|split]]].
  - unfold terminate_workers.
    destruct (terminate_instances ec2 (py_split comma s)); reflexivity.
  - apply py_split_not_nil.
  - reflexivity.
  - unfold terminate_workers.
    destruct (terminate_instances ec2 (py_split comma s)); reflexivity.
  - split; [reflexivity|]. eexists. reflexivity.
Qed.

(** * Further properties *)

(** ** The retry loop, whatever the client answers *)

Section LaunchBounds.

Variable ec2 : ec2_client.
Variable req : request.

Lemma terminate_calls_app (t1 t2 : trace) :
  terminate_calls (t1 ++ t2) = terminate_calls t1 ++ terminate_calls t2.
Proof.
  induction t1 as [|e t1 IH]; [reflexivity|].
  destruct e; cbn [app terminate_calls]; rewrite IH; reflexivity.
Qed.

(** From iteration [a] on: at most one call per remaining iteration, at
    most [2^7 - 2^a] seconds of sleep, and the loop does not run out. *)
Lemma run_loop_bounds (n : nat) : forall a,
  1 <= a -> a + Z.of_nat n = MAX_RUN_WORKER_RETRIES ->
  (run_calls (fst (run_loop ec2 req (py_range a (MAX_RUN_WORKER_RETRIES + 1)))) <= S n)%nat /\
  0 <= total_sleep (fst (run_loop ec2 req (py_range a (MAX_RUN_WORKER_RETRIES + 1))))
    <= 2 ^ MAX_RUN_WORKER_RETRIES - 2 ^ a /\
  terminate_calls (fst (run_loop ec2 req (py_range a (MAX_RUN_WORKER_RETRIES + 1)))) = [] /\
  snd (run_loop ec2 req (py_range a (MAX_RUN_WORKER_RETRIES + 1))) <> Return None.
Proof.
  assert (Hpow : forall a, 1 <= a <= MAX_RUN_WORKER_RETRIES ->
            0 <= 2 ^ MAX_RUN_WORKER_RETRIES - 2 ^ a).
  { intros a Ha.
    assert (2 ^ a <= 2 ^ MAX_RUN_WORKER_RETRIES) by (apply Z.pow_le_mono_r; lia). lia. }
  induction n as [|n IH]; intros a Ha Hn;
    rewrite py_range_cons by lia;
    destruct (run_instances ec2 a req) as [insts|code|name] eqn:Hrun.
  - rewrite (run_loop_ok _ _ _ _ _ Hrun). cbn [fst snd run_calls total_sleep terminate_calls]. specialize (Hpow a).
    repeat split; try lia; try reflexivity. discriminate.
  - assert (a = MAX_RUN_WORKER_RETRIES) by lia. subst a.
    rewrite (run_loop_last _ _ _ _ Hrun). cbn [fst snd run_calls total_sleep terminate_calls].
    specialize (Hpow MAX_RUN_WORKER_RETRIES).
    repeat split; try lia; try reflexivity; discriminate.
  - rewrite (run_loop_other _ _ _ _ _ Hrun). cbn [fst snd run_calls total_sleep terminate_calls]. specialize (Hpow a).
    repeat split; try lia; try reflexivity; discriminate.
  - rewrite (run_loop_ok _ _ _ _ _ Hrun). cbn [fst snd run_calls total_sleep terminate_calls]. specialize (Hpow a).
    repeat split; try lia; try reflexivity; discriminate.
  - rewrite (run_loop_retry _ _ _ _ _ Hrun) by lia.
    destruct (IH (a + 1)) as (Hc & Hs & Ht & Hr); [lia|lia|].
    cbn [fst snd run_calls total_sleep terminate_calls].
    assert (H2 : 2 ^ (a + 1) = 2 * 2 ^ a).
    { replace (a + 1) with (Z.succ a) by lia. apply Z.pow_succ_r. lia. }
    assert (0 < 2 ^ a) by (apply Z.pow_pos_nonneg; lia).
    repeat split; try lia; assumption.
  - rewrite (run_loop_other _ _ _ _ _ Hrun). cbn [fst snd run_calls total_sleep terminate_calls]. specialize (Hpow a).
    repeat split; try lia; try reflexivity; discriminate.
Qed.

(** An exception out of the loop is the retry limit, or an exception of
    [run_instances] that is not a [ClientError]. *)
Lemma run_loop_raises (retries : list Z) : forall t e,
  run_loop ec2 req retries = (t, Raise e) ->
  e = exhausted \/
  exists retry name, run_instances ec2 retry req = RunOtherError name /\ e = OtherError name.
Proof.
  induction retries as [|retry rest IH]; intros t e H; [discriminate H|].
  destruct (run_instances ec2 retry req) as [insts|code|name] eqn:Hrun.
  - rewrite (run_loop_ok _ _ _ _ _ Hrun) in H. discriminate H.
  - destruct (Z.eq_dec retry MAX_RUN_WORKER_RETRIES) as [->|Hne].
    + rewrite (run_loop_last _ _ _ _ Hrun) in H. injection H as _ <-. left. reflexivity.
    + rewrite (run_loop_retry _ _ _ _ _ Hrun Hne) in H.
      destruct (run_loop ec2 req rest) as [t' r'] eqn:Hrest. cbn [fst snd] in H.
      injection H as _ ->. exact (IH _ _ eq_refl).
  - rewrite (run_loop_other _ _ _ _ _ Hrun) in H. injection H as _ <-.
    right. exists retry, name. split; [exact Hrun|reflexivity].
Qed.

Lemma launch_workers_fst :
  fst (launch_workers ec2 req) =
  fst (run_loop ec2 req (py_range 1 (MAX_RUN_WORKER_RETRIES + 1))).
Proof.
  unfold launch_workers.
  destruct (run_loop ec2 req (py_range 1 (MAX_RUN_WORKER_RETRIES + 1)))
    as [t [[insts|]|e]]; cbn; rewrite ?app_nil_r; reflexivity.
Qed.

Lemma launch_workers_raises (t : trace) (e : exn) :
  launch_workers ec2 req = (t, Raise e) ->
  e = exhausted \/
  exists retry name, run_instances ec2 retry req = RunOtherError name /\ e = OtherError name.
Proof.
  intros H. unfold launch_workers in H.
  pose proof (run_loop_bounds 6 1 ltac:(lia) eq_refl) as (_ & _ & _ & Hsome).
  destruct (run_loop ec2 req (py_range 1 (MAX_RUN_WORKER_RETRIES + 1)))
    as [t' [[insts|]|e']] eqn:Hloop; cbn in H.
  - discriminate H.
  - exfalso. apply Hsome. reflexivity.
  - injection H as _ <-. exact (run_loop_raises _ _ _ Hloop).
Qed.

(** [k] failures with a [ClientError], then an exception that is not one. *)
Lemma run_loop_fail_then_other (k : nat) : forall (a : Z) (name : string),
  a + Z.of_nat k <= MAX_RUN_WORKER_RETRIES ->
  (forall retry, a <= retry < a + Z.of_nat k ->
     exists code, run_instances ec2 retry req = RunClientError code) ->
  run_instances ec2 (a + Z.of_nat k) req = RunOtherError name ->
  exists t,
    run_loop ec2 req (py_range a (MAX_RUN_WORKER_RETRIES + 1)) = (t, Raise (OtherError name)) /\
    run_calls t = S k /\
    total_sleep t = sum_Z (map (fun retry => 2 ^ retry) (py_range a (a + Z.of_nat k))) /\
    last t (EvSleep 0) = EvRunInstances req.
Proof.
  induction k as [|k IH]; intros a name Hle Hfail Hother.
  - rewrite Z.add_0_r in *. rewrite py_range_cons by lia.
    rewrite (run_loop_other _ _ _ _ _ Hother). eexists; split; [reflexivity|].
    rewrite py_range_nil by lia. repeat split.
  - destruct (Hfail a ltac:(lia)) as [code Hcode].
    rewrite py_range_cons by lia.
    rewrite (run_loop_retry _ _ _ _ _ Hcode) by lia.
    destruct (IH (a + 1) name) as (t & Ht & Hcalls & Hsleep & Hlast).
    + lia.
    + intros retry Hr. apply Hfail. lia.
    + rewrite <- Hother. f_equal. lia.
    + rewrite Ht. cbn [fst snd]. eexists; split; [reflexivity|].
      cbn [run_calls total_sleep]. rewrite Hcalls, Hsleep. repeat split.
      * rewrite (py_range_cons a) by lia. cbn [map sum_Z fold_right].
        replace (a + Z.of_nat (S k)) with (a + 1 + Z.of_nat k) by lia. reflexivity.
      * destruct t as [|e t]; [discriminate Hcalls|]. cbn [last] in *. exact Hlast.
Qed.

End LaunchBounds.

(** ** The polling loop, whatever the client answers *)

Section PollBounds.

Variable ec2 : ec2_client.

(** Scanning an answer raises exactly when it lists a running instance
    without [PrivateIpAddress]; the exception is then the [KeyError]. *)
Lemma scan_instances_raises (infos : list instance_info) : forall ips nr,
  (exists e, scan_instances infos ips nr = Raise e) <->
  (exists info, In info infos /\ running_info info = true /\ PrivateIpAddress info = None).
Proof.
  induction infos as [|info infos IH]; intros ips nr; cbn [scan_instances].
  - split; [intros [e H]; discriminate H|intros (info & [] & _)].
  - change (String.eqb (StateName info) "running") with (running_info info).
    destruct (running_info info) eqn:Hrun.
    + destruct (PrivateIpAddress info) as [ip|] eqn:Hip.
      * rewrite IH. split.
        -- intros (i & Hin & H). exists i. split; [right; exact Hin|exact H].
        -- intros (i & [<-|Hin] & Hr & Hn); [congruence|]. exists i. auto.
      * split; [|intros _; eexists; reflexivity].
        intros _. exists info. split; [left; reflexivity|]. split; assumption.
    + rewrite IH. split.
      * intros (i & Hin & H). exists i. split; [right; exact Hin|exact H].
      * intros (i & [<-|Hin] & Hr & Hn); [congruence|]. exists i. auto.
Qed.

Lemma scan_instances_error (infos : list instance_info) : forall ips nr e,
  scan_instances infos ips nr = Raise e -> e = KeyError "PrivateIpAddress".
Proof.
  induction infos as [|info infos IH]; intros ips nr e H; cbn [scan_instances] in H.
  - discriminate H.
  - destruct (String.eqb (StateName info) "running").
    + destruct (PrivateIpAddress info); [exact (IH _ _ _ H)|].
      injection H as <-. reflexivity.
    + exact (IH _ _ _ H).
Qed.

Lemma scan_reservations_raises (rs : reservations) : forall ips nr,
  (exists e, scan_reservations rs ips nr = Raise e) <->
  (exists info, In info (List.concat rs) /\ running_info info = true /\
                PrivateIpAddress info = None).
Proof.
  induction rs as [|r rs IH]; intros ips nr; cbn [scan_reservations List.concat].
  - split; [intros [e H]; discriminate H|intros (info & [] & _)].
  - destruct (scan_instances r ips nr) as [[ips1 nr1]|e] eqn:Hr.
    + rewrite IH. split.
      * intros (i & Hin & H). exists i. split; [apply in_or_app; right; exact Hin|exact H].
      * intros (i & Hin & H). apply in_app_or in Hin. destruct Hin as [Hin|Hin].
        -- exfalso.
           assert (Hex : exists e, scan_instances r ips nr = Raise e).
           { apply scan_instances_raises. exists i. split; [exact Hin|exact H]. }
           destruct Hex as [e He]. rewrite Hr in He. discriminate He.
        -- exists i. split; [exact Hin|exact H].
    + split; [|intros _; eexists; reflexivity].
      intros _.
      assert (Hex : exists e, scan_instances r ips nr = Raise e) by (eexists; exact Hr).
      apply scan_instances_raises in Hex. destruct Hex as (i & Hin & H).
      exists i. split; [apply in_or_app; left; exact Hin|exact H].
Qed.

Lemma scan_reservations_error (rs : reservations) : forall ips nr e,
  scan_reservations rs ips nr = Raise e -> e = KeyError "PrivateIpAddress".
Proof.
  induction rs as [|r rs IH]; intros ips nr e H; cbn [scan_reservations] in H.
  - discriminate H.
  - destruct (scan_instances r ips nr) as [[ips1 nr1]|e'] eqn:Hr.
    + exact (IH _ _ _ H).
    + injection H as <-. exact (scan_instances_error _ _ _ _ Hr).
Qed.

(** An exception out of the polling loop was raised by a describe call, or
    is the [KeyError] of a running instance without address. *)
Lemma wait_loop_raises (attempts : list Z) : forall nr ips t e,
  wait_loop ec2 attempts nr ips = (t, Raise e) ->
  (exists a q, describe_instances ec2 a q = DescribeError e) \/
  e = KeyError "PrivateIpAddress".
Proof.
  induction attempts as [|a rest IH]; intros nr ips t e H; [discriminate H|].
  destruct (wait_loop_cases ec2 a rest nr ips); rewrite Hw in H; try discriminate H.
  - injection H as _ <-. left. exists a, nr. exact Hd.
  - injection H as _ <-. right. exact (scan_reservations_error _ _ _ _ Hs).
  - destruct (wait_loop ec2 rest nr' ips') as [t' r'] eqn:Hrest. cbn [fst snd] in H.
    injection H as _ ->. exact (IH _ _ _ _ Hrest).
Qed.

Lemma wait_loop_no_terminate (attempts : list Z) : forall nr ips,
  terminate_calls (fst (wait_loop ec2 attempts nr ips)) = [].
Proof.
  induction attempts as [|a rest IH]; intros nr ips; [reflexivity|].
  destruct (wait_loop_cases ec2 a rest nr ips); rewrite Hw; try reflexivity.
  cbn [fst terminate_calls]. apply IH.
Qed.

End PollBounds.

(** ** Whole runs, whatever the client answers *)

Section SpinUpMore.

Variable ec2 : ec2_client.
Variable req : request.

(** X1.  An exception of [run_instances] that is not a [ClientError] is
    not retried: raised by call [k + 1] after [k < 7] calls that raised a
    [ClientError], it leaves [spin_up_workers] at once, after exactly
    [k + 1] calls and the [k] backoff sleeps, before any describe call or
    file. *)
Theorem other_exception_is_not_retried (k : Z) (name : string) :
  0 <= k < MAX_RUN_WORKER_RETRIES ->
  (forall retry, 1 <= retry <= k ->
     exists code, run_instances ec2 retry req = RunClientError code) ->
  run_instances ec2 (k + 1) req = RunOtherError name ->
  exists t,
    spin_up_workers ec2 req = (t, Raise (OtherError name)) /\
    Z.of_nat (run_calls t) = k + 1 /\
    total_sleep t = sum_Z (backoff_delays k) /\
    last t (EvSleep 0) = EvRunInstances req /\
    describe_queries t = [] /\ files_written t = [].
Proof.
  intros Hk Hfail Hother.
  destruct (run_loop_fail_then_other ec2 req (Z.to_nat k) 1 name)
    as (t & Ht & Hcalls & Hsleep & Hlast).
  - lia.
  - intros retry Hr. apply Hfail. lia.
  - rewrite <- Hother. f_equal. lia.
  - pose proof (run_loop_trace ec2 req (py_range 1 (MAX_RUN_WORKER_RETRIES + 1))) as [Hf Hq].
    rewrite Ht in Hf, Hq. cbn [fst] in Hf, Hq.
    apply launch_workers_raise in Ht.
    rewrite (spin_up_launch_raise _ _ _ _ Ht). eexists; split; [reflexivity|].
    cbn [run_calls total_sleep describe_queries files_written].
    split; [lia|]. split.
    { rewrite Hsleep. unfold backoff_delays. do 3 f_equal. lia. }
    split; [|split; assumption].
    destruct t as [|e t]; [discriminate Hcalls|]. exact Hlast.
Qed.

(** X2.  Whatever the client answers, a run calls [run_instances] at most
    7 times and [describe_instances] at most 20 times, sleeps at most
    [126 + 100] seconds, and never calls [terminate_instances]. *)
Theorem spin_up_effort_bounded :
  (run_calls (fst (spin_up_workers ec2 req)) <= 7)%nat /\
  (List.length (describe_queries (fst (spin_up_workers ec2 req))) <= 20)%nat /\
  0 <= total_sleep (fst (spin_up_workers ec2 req)) <= 226 /\
  terminate_calls (fst (spin_up_workers ec2 req)) = [].
Proof.
  pose proof (run_loop_bounds ec2 req 6 1 ltac:(lia) eq_refl) as (Hc1 & Hs1 & Ht1 & _).
  rewrite <- launch_workers_fst in Hc1, Hs1, Ht1.
  change (2 ^ MAX_RUN_WORKER_RETRIES - 2 ^ 1) with 126 in Hs1.
  assert (Hwait : forall ids,
            run_calls (fst (wait_loop ec2 poll_attempts ids [])) = 0%nat /\
            (List.length (describe_queries (fst (wait_loop ec2 poll_attempts ids []))) <= 20)%nat /\
            0 <= total_sleep (fst (wait_loop ec2 poll_attempts ids [])) <= 100 /\
            terminate_calls (fst (wait_loop ec2 poll_attempts ids [])) = []).
  { intros ids.
    pose proof (wait_loop_trace ec2 poll_attempts ids []) as (_ & Hr & Hsl & Hlen).
    change (List.length poll_attempts) with 20%nat in Hlen.
    pose proof (wait_loop_no_terminate ec2 poll_attempts ids []) as Hterm.
    repeat split; try assumption; lia. }
  destruct (spin_up_workers ec2 req) as [t r] eqn:H. cbn [fst].
  destruct (spin_up_cases _ _ _ _ H); subst t;
    try (specialize (Hwait ids); rewrite Hw in Hwait; cbn [fst] in Hwait;
         destruct Hwait as (Hc2 & Hq2 & Hs2 & Ht2));
    rewrite Hl in Hc1, Hs1, Ht1; cbn [fst] in Hc1, Hs1, Ht1;
    pose proof (launch_workers_trace ec2 req) as [_ Hq1];
    rewrite Hl in Hq1; cbn [fst] in Hq1;
    cbn [run_calls total_sleep describe_queries terminate_calls];
    rewrite ?run_calls_app, ?total_sleep_app, ?describe_queries_app, ?terminate_calls_app;
    rewrite ?Hq1, ?Ht1, ?Ht2, ?Hc2;
    cbn [run_calls total_sleep describe_queries terminate_calls app List.length];
    rewrite ?length_app; cbn [List.length];
    repeat split; lia.
Qed.

(** X3.  With the file operations of lines 102-110 left aside (they have
    no failure path here), an exception leaves [spin_up_workers] before
    any file is written, and it is the retry limit, the timeout, an
    exception of [run_instances] that is not a [ClientError], an exception
    of a describe call, or the [KeyError] of a running instance without
    address.  [response] is never unbound after the retry loop. *)
Theorem spin_up_exceptions (t : trace) (e : exn) :
  spin_up_workers ec2 req = (t, Raise e) ->
  files_written t = [] /\
  (e = exhausted \/
   e = timed_out \/
   (exists retry name,
      run_instances ec2 retry req = RunOtherError name /\ e = OtherError name) \/
   (exists a q, describe_instances ec2 a q = DescribeError e) \/
   e = KeyError "PrivateIpAddress").
Proof.
  intros H.
  pose proof (launch_workers_trace ec2 req) as [Hf1 _].
  destruct (spin_up_cases _ _ _ _ H); try discriminate Hr; injection Hr as ->; subst t.
  - rewrite Hl in Hf1. cbn [fst] in Hf1. split; [exact Hf1|].
    destruct (launch_workers_raises _ _ _ _ Hl) as [->|Hother]; auto.
  - split.
    + cbn [files_written].
      apply (files_written_phases ec2 req t1 t2 ids (Return (true, [])));
        [rewrite Hl; reflexivity|rewrite Hw; reflexivity].
    + destruct (wait_loop_raises _ _ _ _ _ _ Hw) as [Hd| ->]; auto.
  - split; [|auto].
    cbn [files_written].
    apply (files_written_phases ec2 req t1 t2 ids (Return (true, [])));
      [rewrite Hl; reflexivity|rewrite Hw; reflexivity].
Qed.

(** X4.  When the answer to the first poll lists a running instance
    without [PrivateIpAddress], the run ends in [KeyError] after that one
    describe call and writes no file. *)
Theorem running_without_address_raises (ids : list string) (rs : reservations)
    (info : instance_info) :
  snd (launch_workers ec2 req) = Return ids ->
  describe_instances ec2 0 ids = DescribeOk rs ->
  In info (List.concat rs) -> running_info info = true -> PrivateIpAddress info = None ->
  snd (spin_up_workers ec2 req) = Raise (KeyError "PrivateIpAddress") /\
  describe_queries (fst (spin_up_workers ec2 req)) = [ids] /\
  files_written (fst (spin_up_workers ec2 req)) = [].
Proof.
  intros Hl Hd Hin Hrun Hnone.
  destruct (launch_workers ec2 req) as [t1 r1] eqn:Hlw. cbn [snd] in Hl. subst r1.
  assert (Hex : exists e, scan_reservations rs [] [] = Raise e).
  { apply scan_reservations_raises. exists info. auto. }
  destruct Hex as [e He].
  pose proof (scan_reservations_error _ _ _ _ He) as ->.
  assert (Hw : wait_loop ec2 poll_attempts ids [] =
               ([EvSleep 5; EvDescribeInstances ids], Raise (KeyError "PrivateIpAddress"))).
  { unfold poll_attempts. rewrite py_range_cons by (unfold WORKER_RUN_TIMEOUT_MINUTES; lia).
    exact (wait_loop_scan_error ec2 _ _ _ _ _ _ Hd He). }
  rewrite (spin_up_wait_raise _ _ _ _ _ _ Hlw Hw). cbn [fst snd].
  pose proof (launch_workers_trace ec2 req) as [Hf1 Hq1].
  rewrite Hlw in Hf1, Hq1. cbn [fst] in Hf1, Hq1.
  cbn [describe_queries files_written].
  rewrite describe_queries_app, files_written_app, Hf1, Hq1. repeat split.
Qed.

(** The phases of a run that returns, and what it wrote. *)
Lemma returned_run_phases (t : trace) :
  spin_up_workers ec2 req = (t, Return tt) ->
  exists t2 ids ips,
    snd (launch_workers ec2 req) = Return ids /\
    wait_loop ec2 poll_attempts ids [] = (t2, Return (true, ips)) /\
    files_written t = [(ip_list_file, py_join "," ips); (task_arn_file, py_join "," ids)].
Proof.
  intros H. destruct (spin_up_cases _ _ _ _ H); try discriminate Hr.
  exists t2, ids, ips. rewrite Hl. split; [reflexivity|]. split; [exact Hw|].
  rewrite Ht. cbn [files_written]. rewrite app_assoc, files_written_app.
  rewrite (files_written_phases ec2 req t1 t2 ids (Return (true, ips)));
    [reflexivity|rewrite Hl; reflexivity|rewrite Hw; reflexivity].
Qed.

(** A run makes no [terminate_instances] call. *)
Lemma spin_up_no_terminate : terminate_calls (fst (spin_up_workers ec2 req)) = [].
Proof.
  pose proof (run_loop_bounds ec2 req 6 1 ltac:(lia) eq_refl) as (_ & _ & Ht1 & _).
  rewrite <- launch_workers_fst in Ht1.
  destruct (spin_up_workers ec2 req) as [t r] eqn:H. cbn [fst].
  destruct (spin_up_cases _ _ _ _ H); subst t;
    rewrite Hl in Ht1; cbn [fst] in Ht1;
    try (pose proof (wait_loop_no_terminate ec2 poll_attempts ids []) as Ht2;
         rewrite Hw in Ht2; cbn [fst] in Ht2);
    cbn [terminate_calls];
    rewrite ?terminate_calls_app, ?Ht1, ?Ht2; reflexivity.
Qed.

(** X5.  Whatever the client answers, a run that returns has written
    exactly two files, the addresses first: the identifier file holds the
    launched identifiers joined by commas in launch order, and every
    address in the address file was reported by a describe answer. *)
Theorem returned_run_wrote_two_files (t : trace) :
  spin_up_workers ec2 req = (t, Return tt) ->
  exists ids ips,
    snd (launch_workers ec2 req) = Return ids /\
    files_written t = [(ip_list_file, py_join "," ips); (task_arn_file, py_join "," ids)] /\
    forall ip, In ip ips ->
      exists a q rs info,
        describe_instances ec2 a q = DescribeOk rs /\ In info (List.concat rs) /\
        PrivateIpAddress info = Some ip.
Proof.
  intros H. destruct (returned_run_phases t H) as (t2 & ids & ips & Hl & Hw & Hfiles).
  exists ids, ips. split; [exact Hl|]. split; [exact Hfiles|].
  intros ip Hip.
  destruct (wait_loop_addresses _ _ _ _ _ _ _ Hw ip Hip) as [[]|Hex]. exact Hex.
Qed.

(** X6.  Up and down compose: with a client that keeps the EC2 contract
    and a request for [N > 0] workers, [terminate_workers] given the
    content of the identifier file of a returned run asks any client to
    terminate exactly the launched identifiers, in launch order. *)
Theorem terminate_reads_back_launched (t : trace) :
  0 < number_of_workers req ->
  provider_contract ec2 req ->
  spin_up_workers ec2 req = (t, Return tt) ->
  exists ids content,
    snd (launch_workers ec2 req) = Return ids /\
    In (task_arn_file, content) (files_written t) /\
    forall ec2', terminate_calls (fst (terminate_workers ec2' (Some content))) = [ids].
Proof.
  intros Hpos Hc H.
  destruct (returned_run_phases t H) as (t2 & ids & ips & Hl & _ & Hfiles).
  destruct (launch_workers ec2 req) as [t1 r1] eqn:Hlw. cbn [snd] in Hl. subst r1.
  destruct (launch_workers_inv _ _ _ _ Hlw) as (retry & insts & Hrun & Hids).
  pose proof (launch_count _ _ Hc _ _ Hrun) as Hcount.
  pose proof (launch_ids _ _ Hc _ _ Hrun) as Hvalid. rewrite <- Hids in Hvalid.
  exists ids, (py_join "," ids). split; [reflexivity|]. split.
  - rewrite Hfiles. right. left. reflexivity.
  - intros ec2'. unfold terminate_workers.
    assert (Hsplit : py_split comma (py_join "," ids) = ids).
    { apply py_split_join.
      - destruct ids; [|discriminate].
        destruct insts; [cbn in Hcount; lia|discriminate Hids].
      - eapply Forall_impl; [|exact Hvalid]. intros s [_ Hs]. exact Hs. }
    rewrite Hsplit.
    destruct (terminate_instances ec2' ids); reflexivity.
Qed.

(** X7.  When the launch returns no instance, the first poll queries the
    empty list; if its answer lists no instance, the run returns after that
    one call and writes two empty files. *)
Theorem no_instance_launched (rs : reservations) :
  snd (launch_workers ec2 req) = Return [] ->
  describe_instances ec2 0 [] = DescribeOk rs ->
  List.concat rs = [] ->
  snd (spin_up_workers ec2 req) = Return tt /\
  describe_queries (fst (spin_up_workers ec2 req)) = [[]] /\
  files_written (fst (spin_up_workers ec2 req)) = [(ip_list_file, ""); (task_arn_file, "")].
Proof.
  intros Hl Hd Hnone.
  destruct (launch_workers ec2 req) as [t1 r1] eqn:Hlw. cbn [snd] in Hl. subst r1.
  destruct (scan_reservations rs [] []) as [[ips nr]|e] eqn:Hs.
  - destruct (scan_reservations_spec _ _ _ _ _ Hs) as (Hnr & addrs & Hips & Haddrs).
    rewrite Hnone in Hnr, Haddrs. cbn in Hnr, Haddrs, Hips.
    destruct addrs; [|discriminate Haddrs]. subst ips nr.
    assert (Hw : wait_loop ec2 poll_attempts [] [] =
                 ([EvSleep 5; EvDescribeInstances []; EvLog LogFinished], Return (true, []))).
    { unfold poll_attempts. rewrite py_range_cons by (unfold WORKER_RUN_TIMEOUT_MINUTES; lia).
      exact (wait_loop_finished ec2 _ _ _ _ _ _ Hd Hs). }
    rewrite (spin_up_all_running _ _ _ _ _ _ Hlw Hw). cbn [fst snd].
    pose proof (launch_workers_trace ec2 req) as [Hf1 Hq1].
    rewrite Hlw in Hf1, Hq1. cbn [fst] in Hf1, Hq1.
    cbn [describe_queries files_written].
    rewrite describe_queries_app, files_written_app, Hf1, Hq1. repeat split.
  - exfalso.
    assert (Hex : exists e, scan_reservations rs [] [] = Raise e) by (eexists; exact Hs).
    apply scan_reservations_raises in Hex. destruct Hex as (info & Hin & _).
    rewrite Hnone in Hin. contradiction.
Qed.

End SpinUpMore.

(** ** Splitting the identifier string *)

Lemma py_split_parts (s : string) :
  py_join "," (py_split comma s) = s /\
  Forall (fun part => has_comma part = false) (py_split comma s).
Proof.
  induction s as [|c s IH]; [split; [reflexivity|repeat constructor]|].
  destruct IH as [IHj IHf]. cbn [py_split]. destruct (Ascii.eqb_spec c comma) as [->|Hc].
  - split; [|constructor; [reflexivity|exact IHf]].
    pose proof (py_split_not_nil s) as Hne.
    destruct (py_split comma s) as [|hd tl]; [contradiction|].
    unfold py_join in *.
    change (String.concat "," ("" :: hd :: tl))
      with ("" ++ "," ++ String.concat "," (hd :: tl))%string.
    rewrite IHj. reflexivity.
  - pose proof (py_split_not_nil s) as Hne.
    destruct (py_split comma s) as [|hd tl]; [contradiction|].
    apply Forall_cons_iff in IHf. destruct IHf as [Hhd Htl]. split.
    + unfold py_join in *. rewrite <- IHj. destruct tl; reflexivity.
    + constructor; [|exact Htl]. cbn [has_comma].
      apply Ascii.eqb_neq in Hc. rewrite Hc, Hhd. reflexivity.
Qed.

(** X8.  [terminate_workers] loses nothing of its argument: the list in
    its one [terminate_instances] call, joined by commas, is the argument
    again, and no identifier in the list holds a comma. *)
Theorem terminate_splits_losslessly (ec2 : ec2_client) (s : string) :
  exists ids,
    terminate_calls (fst (terminate_workers ec2 (Some s))) = [ids] /\
    py_join "," ids = s /\
    Forall (fun id => has_comma id = false) ids.
Proof.
  exists (py_split comma s). split.
  - unfold terminate_workers.
    destruct (terminate_instances ec2 (py_split comma s)); reflexivity.
  - apply py_split_parts.
Qed.

(** ** How long a scheduled client is polled *)

Section ScheduledPolls.

Variable ids0 : list string.
Variable ready_at : string -> Z.
Variable addr : string -> string.

Lemma first_poll_nonneg (id : string) : 0 <= first_poll ready_at id.
Proof. unfold first_poll. lia. Qed.

Lemma last_poll_upper (l : list string) :
  0 <= last_poll ready_at l /\
  forall id, In id l -> first_poll ready_at id <= last_poll ready_at l.
Proof.
  induction l as [|x l IHl]; cbn [last_poll fold_right]; [split; [lia|intros id []]|].
  destruct IHl as [IH0 IH]. fold (last_poll ready_at l) in *. split; [lia|].
  intros id [<-|Hid]; [lia|]. specialize (IH id Hid). lia.
Qed.

Lemma last_poll_attained (l : list string) :
  l <> [] -> exists id, In id l /\ first_poll ready_at id = last_poll ready_at l.
Proof.
  induction l as [|x l IH]; intros Hne; [contradiction|].
  cbn [last_poll fold_right]. fold (last_poll ready_at l).
  destruct l as [|y l].
  - exists x. split; [left; reflexivity|]. cbn. pose proof (first_poll_nonneg x). lia.
  - destruct (IH ltac:(discriminate)) as (id & Hid & Hmax).
    destruct (Z.le_gt_cases (first_poll ready_at x) (last_poll ready_at (y :: l))).
    + exists id. split; [right; exact Hid|]. lia.
    + exists x. split; [left; reflexivity|]. lia.
Qed.

(** Dropping the identifiers first seen at the earliest poll leaves the
    last poll where it was, as long as some identifier is left. *)
Lemma last_poll_filter (a : Z) (l : list string) :
  (forall id, In id l -> a <= first_poll ready_at id) ->
  filter (fun id => negb (first_poll ready_at id =? a)) l <> [] ->
  last_poll ready_at (filter (fun id => negb (first_poll ready_at id =? a)) l) =
  last_poll ready_at l.
Proof.
  intros Hlo Hne.
  set (l' := filter (fun id => negb (first_poll ready_at id =? a)) l) in *.
  destruct (last_poll_attained l' Hne) as (id1 & Hid1 & Hmax1).
  assert (Hl : l <> []) by (intros ->; apply Hne; reflexivity).
  destruct (last_poll_attained l Hl) as (id0 & Hid0 & Hmax0).
  pose proof (last_poll_upper l) as [_ Hup].
  pose proof (last_poll_upper l') as [_ Hup'].
  apply filter_In in Hid1. destruct Hid1 as [Hid1 _].
  pose proof (Hup id1 Hid1). pose proof (Hlo id1 Hid1).
  destruct (Z.eqb_spec (first_poll ready_at id0) a) as [Heq|Hneq].
  - lia.
  - assert (Hin : In id0 l').
    { apply filter_In. split; [exact Hid0|]. apply negb_true_iff, Z.eqb_neq, Hneq. }
    pose proof (Hup' id0 Hin). lia.
Qed.

(** From poll [a] on, with every identifier still awaited first seen
    running before poll [a + n]: the loop ends with all running, at the
    last of their first polls. *)
Lemma wait_loop_scheduled_polls (n : nat) : forall a nr ips,
  0 <= a -> nr <> [] ->
  (forall id, In id nr -> a <= first_poll ready_at id < a + Z.of_nat n) ->
  exists t ips',
    wait_loop (scheduled_client ids0 ready_at addr) (py_range a (a + Z.of_nat n)) nr ips =
      (t, Return (true, ips')) /\
    Z.of_nat (List.length (describe_queries t)) = last_poll ready_at nr - a + 1.
Proof.
  induction n as [|n IH]; intros a nr ips Ha Hne Hb.
  - destruct nr as [|id nr]; [contradiction|].
    specialize (Hb id (or_introl eq_refl)). lia.
  - rewrite py_range_cons by lia.
    destruct (running_at_first_poll ready_at a nr Ha) as [_ Hnot].
    { intros id Hid. apply Hb, Hid. }
    destruct (wait_loop_cases (scheduled_client ids0 ready_at addr) a
                (py_range (a + 1) (a + Z.of_nat (S n))) nr ips);
      try discriminate Hd.
    + rewrite (scheduled_scan _ _ _ _ _ _ _ Hd) in Hs. discriminate Hs.
    + destruct (scheduled_tick _ _ _ _ _ _ _ _ _ Hd Hs) as [_ Hnil].
      rewrite Hw. eexists _, _. split; [reflexivity|].
      cbn [describe_queries List.length].
      destruct (last_poll_attained nr Hne) as (id & Hid & Hmax).
      assert (Hfp : first_poll ready_at id = a).
      { destruct (Z.eqb_spec (first_poll ready_at id) a) as [Heq|Hneq]; [exact Heq|].
        exfalso.
        assert (Hin : In id (filter (fun id => negb (first_poll ready_at id =? a)) nr)).
        { apply filter_In. split; [exact Hid|]. apply negb_true_iff, Z.eqb_neq, Hneq. }
        rewrite <- Hnot, <- Hnil in Hin. contradiction. }
      lia.
    + destruct (scheduled_tick _ _ _ _ _ _ _ _ _ Hd Hs) as [-> ->].
      rewrite Hnot in *.
      replace (a + Z.of_nat (S n)) with (a + 1 + Z.of_nat n) in * by lia.
      destruct (IH (a + 1) (filter (fun id => negb (first_poll ready_at id =? a)) nr)
                  (ips ++ map addr (filter (fun id => ready_at id <=? a) nr)))
        as (t & ips' & Ht & Hlen); [lia|exact Hne0| |].
      { intros id Hid. apply filter_In in Hid. destruct Hid as [Hid Hlater].
        specialize (Hb id Hid). apply negb_true_iff, Z.eqb_neq in Hlater. lia. }
      rewrite Hw, Ht. cbn [fst snd]. eexists _, _. split; [reflexivity|].
      cbn [describe_queries List.length].
      rewrite last_poll_filter in Hlen; [lia| |exact Hne0].
      intros id Hid. apply Hb, Hid.
Qed.

(** Against a scheduled client with at least one instance, all of them
    running by the last poll, the run returns after one describe call more
    than the number of the last poll at which an instance is first seen
    running. *)
Theorem scheduled_run_returns (req : request) :
  ids0 <> [] ->
  (forall id, In id ids0 -> ready_at id < WORKER_RUN_TIMEOUT_MINUTES * 2) ->
  exists t,
    spin_up_workers (scheduled_client ids0 ready_at addr) req = (t, Return tt) /\
    Z.of_nat (List.length (describe_queries t)) = last_poll ready_at ids0 + 1 /\
    total_sleep t = 5 * (last_poll ready_at ids0 + 1).
Proof.
  intros Hne Hready.
  destruct (wait_loop_scheduled_polls 20 0 ids0 [] ltac:(lia) Hne) as (t2 & ips & Hw & Hlen).
  { intros id Hid. specialize (Hready id Hid).
    unfold first_poll, WORKER_RUN_TIMEOUT_MINUTES in *. lia. }
  change (py_range 0 (0 + Z.of_nat 20)) with poll_attempts in Hw.
  rewrite (spin_up_all_running _ _ _ _ _ _ (launch_scheduled ids0 ready_at addr req) Hw).
  eexists; split; [reflexivity|].
  pose proof (wait_loop_trace (scheduled_client ids0 ready_at addr) poll_attempts ids0 [])
    as (_ & _ & Hsl & _).
  rewrite Hw in Hsl. cbn [fst] in Hsl.
  cbn [describe_queries total_sleep app].
  rewrite describe_queries_app, total_sleep_app, Hsl.
  cbn [describe_queries total_sleep]. rewrite app_nil_r. split; lia.
Qed.

End ScheduledPolls.

Lemma scheduled_run_returns_example :
  exists t,
    spin_up_workers second_first (example_request 2) = (t, Return tt) /\
    Z.of_nat (List.length (describe_queries t)) = 2 /\
    total_sleep t = 10.
Proof.
  apply (scheduled_run_returns ["i-1"; "i-2"]
           (fun id => if String.eqb id "i-1" then 1 else 0) example_addr (example_request 2)).
  - discriminate.
  - intros id _. unfold WORKER_RUN_TIMEOUT_MINUTES. destruct (String.eqb id "i-1"); lia.
Defined.

(** ** The command line *)

Lemma manager_events_map (t : trace) : manager_events (map ManagerEvent t) = t.
Proof.
  unfold manager_events. induction t as [|e t IH]; [reflexivity|].
  cbn [map flat_map app]. rewrite IH. reflexivity.
Qed.

(** X10.  No run of the script terminates an instance.  The [up] action
    is [spin_up_workers] on the client of the region and makes no
    [terminate_instances] call; without an action the script logs one
    record and does nothing else; and the [down] action ends in
    [AttributeError] at the lookup of [terminate_tasks], before any effect
    of the manager, whatever [--instance-ids] holds. *)
Theorem command_line_never_terminates (connect : string -> ec2_client) (args : cli_args) :
  terminate_calls (manager_events (fst (main connect args))) = [] /\
  (action args = Some ActionDown ->
   fst (main connect args) = [] /\
   exists msg, snd (main connect args) = Raise (AttributeError msg)) /\
  (action args = Some ActionUp ->
   fst (main connect args) =
     map ManagerEvent (fst (spin_up_workers (connect (region args)) (up_options args))) /\
   snd (main connect args) = snd (spin_up_workers (connect (region args)) (up_options args))) /\
  (action args = None ->
   main connect args =
     ([MainLog "No action specified for PytestWorkerManager"], Return tt)).
Proof.
  unfold main. destruct (action args) as [[|]|].
  - pose proof (spin_up_no_terminate (connect (region args)) (up_options args)) as Hterm.
    destruct (spin_up_workers (connect (region args)) (up_options args)) as [t r].
    cbn [fst snd] in *. rewrite manager_events_map.
    split; [exact Hterm|]. split; [discriminate|]. split; [|discriminate].
    intros _. split; reflexivity.
  - split; [reflexivity|]. split; [|split; discriminate].
    intros _. split; [reflexivity|]. eexists. reflexivity.
  - split; [reflexivity|]. split; [discriminate|]. split; [discriminate|].
    intros _. reflexivity.
Qed.

(** * The create_api_request command *)

Module ApiAccessRequestFacts.

Import ApiAccessRequestCommand.

(** Runs [handle] through all the answers the managers can give. *)
Ltac run_handle o :=
  unfold handle, get_user, get_site, create_api_access_request,
    create_api_access_config, wanted_site, DEFAULT_STATUS, bind, emit, ret, raise in *;
  destruct (user_get _ (opt_username o)) as [u| |uty utx] eqn:Huser;
  destruct (opt_site_name o) as [[|c rest]|] eqn:Hname;
  repeat match goal with
    | H : context [match site_filter_first ?d ?n with _ => _ end] |- _ =>
        destruct (site_filter_first d n) as [[s|]|sty stx] eqn:?
    | |- context [match site_filter_first ?d ?n with _ => _ end] =>
        destruct (site_filter_first d n) as [[s|]|sty stx] eqn:?
    | H : context [match site_get_current ?d with _ => _ end] |- _ =>
        destruct (site_get_current d) as [s|sty stx] eqn:?
    | |- context [match site_get_current ?d with _ => _ end] =>
        destruct (site_get_current d) as [s|sty stx] eqn:?
    | H : context [match request_create ?d ?r with _ => _ end] |- _ =>
        destruct (request_create d r) as [[]|rty rtx] eqn:?
    | |- context [match request_create ?d ?r with _ => _ end] =>
        destruct (request_create d r) as [[]|rty rtx] eqn:?
    | H : context [if opt_create_config o then _ else _] |- _ =>
        destruct (opt_create_config o) eqn:?
    | |- context [if opt_create_config o then _ else _] =>
        destruct (opt_create_config o) eqn:?
    | H : context [match config_get_or_create ?d with _ => _ end] |- _ =>
        destruct (config_get_or_create d) as [[|]|cty ctx] eqn:?
    | |- context [match config_get_or_create ?d with _ => _ end] =>
        destruct (config_get_or_create d) as [[|]|cty ctx] eqn:?
    end.

Section Facts.

Variable PENDING : string.
Variable db : managers.

(** X11.  The command asks for at most one row, and only after both
    lookups answered: the row is for the user found under [username] and
    for the site wanted by [--site-name] (the current site when the name is
    missing or empty), and its status, website and reason are the given
    ones, or the defaults where none was given. *)
Theorem created_request_fields (o : options) (t : list event) (res : result unit)
    (r : api_access_request) :
  handle PENDING db o = (t, res) ->
  In r (requests_created t) ->
  requests_created t = [r] /\
  user_get db (opt_username o) = UserFound (request_user r) /\
  wanted_site db (opt_site_name o) = Answers (Some (request_site r)) /\
  request_status r = or_default (opt_status o) PENDING /\
  request_website r = or_default (opt_website o) (DEFAULT_WEBSITE) /\
  request_reason r = or_default (opt_reason o) (DEFAULT_REASON).
Proof.
  intros H Hin. run_handle o;
    injection H as <- <-; cbn in Hin; try contradiction;
    destruct Hin as [<-|[]]; cbn;
    repeat split; reflexivity.
Qed.

(** X12.  The configuration is looked up or created at most once, and
    exactly when [--create-config] was given and the request row was
    created without an exception. *)
Theorem config_only_after_request (o : options) (t : list event) (res : result unit) :
  handle PENDING db o = (t, res) ->
  (config_calls t <= 1)%nat /\
  (config_calls t = 1%nat <->
   opt_create_config o = true /\
   exists r, requests_created t = [r] /\ request_create db r = Answers tt).
Proof.
  intros H. run_handle o; injection H as <- <-; cbn;
    (split; [lia|]); split;
    try (intros Hc; discriminate Hc);
    try (intros [Hf _]; discriminate Hf);
    try (intros [_ (r & Hr & _)]; discriminate Hr);
    try (intros [_ (r & Hr & Hcr)]; injection Hr as <-; congruence);
    try (intros _; split; [reflexivity|]; eexists; split; [reflexivity|assumption]);
    try (intros _; reflexivity).
Qed.

(** X13.  An exception of the two writes never leaves the command as it
    is: whatever [handle] ends in other than a [CommandError] was raised by
    the user lookup or the site lookup, and then no row was asked for. *)
Theorem only_lookups_fail_raw (o : options) (t : list event) (type_name text : string) :
  handle PENDING db o = (t, Raise (OtherException type_name text)) ->
  requests_created t = [] /\ config_calls t = 0%nat /\
  (user_get db (opt_username o) = UserLookupFails type_name text \/
   wanted_site db (opt_site_name o) = Fails type_name text).
Proof.
  intros H. run_handle o; try discriminate H;
    injection H as <- <- <-; cbn; repeat split; auto.
Qed.

(** X14.  The command returns exactly when the user is found, the wanted
    site is found, the row is created, and, with [--create-config], the
    configuration call answers. *)
Theorem handle_returns_iff (o : options) :
  snd (handle PENDING db o) = Return tt <->
  exists u s,
    user_get db (opt_username o) = UserFound u /\
    wanted_site db (opt_site_name o) = Answers (Some s) /\
    request_create db
      (mk_api_access_request u (or_default (opt_status o) PENDING)
         (or_default (opt_website o) DEFAULT_WEBSITE)
         (or_default (opt_reason o) DEFAULT_REASON) s) = Answers tt /\
    (opt_create_config o = true -> exists created, config_get_or_create db = Answers created).
Proof.
  unfold or_default.
  split.
  - intros H. run_handle o; cbn in H; try discriminate H;
      eexists _, _; (split; [reflexivity|]); (split; [reflexivity|]);
      (split; [eassumption|]); intros Hf; try discriminate Hf; eexists; reflexivity.
  - intros (u0 & s0 & Hu & Hs & Hr & Hc). run_handle o; cbn;
      try discriminate Hu; try discriminate Hs;
      try injection Hu as <-; try injection Hs as <-;
      try congruence;
      try (destruct (Hc eq_refl) as [created Hcr]; discriminate Hcr).
Qed.

(** X15.  A failure of the configuration step does not undo the request:
    with [--create-config], when both lookups answer and the row is
    created but [get_or_create] raises, the command ends in a
    [CommandError] naming the exception, and the row has been created. *)
Theorem config_failure_keeps_request (o : options) (usr : user) (st : site)
    (type_name text : string) :
  opt_create_config o = true ->
  user_get db (opt_username o) = UserFound usr ->
  wanted_site db (opt_site_name o) = Answers (Some st) ->
  request_create db
    (mk_api_access_request usr (or_default (opt_status o) PENDING)
       (or_default (opt_website o) DEFAULT_WEBSITE)
       (or_default (opt_reason o) DEFAULT_REASON) st) = Answers tt ->
  config_get_or_create db = Fails type_name text ->
  snd (handle PENDING db o) =
    Raise (CommandError ("Unable to create ApiAccessConfig. Exception is " ++
                         type_name ++ ": " ++ text)) /\
  requests_created (fst (handle PENDING db o)) =
    [mk_api_access_request usr (or_default (opt_status o) PENDING)
       (or_default (opt_website o) DEFAULT_WEBSITE)
       (or_default (opt_reason o) DEFAULT_REASON) st].
Proof.
  unfold or_default. intros Hflag Hu Hs Hr Hc.
  run_handle o; cbn;
    try discriminate Hu; try discriminate Hs; try discriminate Hflag;
    try injection Hu as <-; try injection Hs as <-;
    try congruence;
    try (injection Hc as <- <-; split; reflexivity).
Qed.

End Facts.

Lemma created_request_fields_witness :
  requests_created (fst (handle "pending" config_fails example_options)) =
    [mk_api_access_request (mk_user "staff") "pending" "www.test-edx-example-website.edu"
       "load test" (mk_site "example.com" "example")] /\
  wanted_site config_fails (Some "") = Answers (Some (mk_site "example.com" "example")).
Proof.
  pose proof (created_request_fields "pending" config_fails example_options
                (fst (handle "pending" config_fails example_options))
                (snd (handle "pending" config_fails example_options))
                (mk_api_access_request (mk_user "staff") "pending"
                   "www.test-edx-example-website.edu" "load test"
                   (mk_site "example.com" "example"))
                eq_refl (or_introl eq_refl)) as (Hone & _ & Hsite & _).
  split; [exact Hone|exact Hsite].
Defined.

Lemma config_only_after_request_witness :
  (config_calls (fst (handle "pending" config_fails example_options)) <= 1)%nat.
Proof.
  exact (proj1 (config_only_after_request "pending" config_fails example_options
                  (fst (handle "pending" config_fails example_options))
                  (snd (handle "pending" config_fails example_options)) eq_refl)).
Defined.

Lemma only_lookups_fail_raw_witness :
  requests_created (fst (handle "pending" db_down example_options)) = [] /\
  config_calls (fst (handle "pending" db_down example_options)) = 0%nat /\
  (user_get db_down "staff" = UserLookupFails "OperationalError" "server has gone away" \/
   wanted_site db_down (Some "") = Fails "OperationalError" "server has gone away").
Proof.
  exact (only_lookups_fail_raw "pending" db_down example_options
           (fst (handle "pending" db_down example_options))
           "OperationalError" "server has gone away" eq_refl).
Defined.

Lemma config_failure_keeps_request_witness :
  snd (handle "pending" config_fails example_options) =
    Raise (CommandError
      "Unable to create ApiAccessConfig. Exception is OperationalError: database is locked") /\
  requests_created (fst (handle "pending" config_fails example_options)) =
    [mk_api_access_request (mk_user "staff") "pending" "www.test-edx-example-website.edu"
       "load test" (mk_site "example.com" "example")].
Proof.
  exact (config_failure_keeps_request "pending" config_fails example_options
           (mk_user "staff") (mk_site "example.com" "example")
           "OperationalError" "database is locked"
           eq_refl eq_refl eq_refl eq_refl eq_refl).
Defined.

End ApiAccessRequestFacts.

(** * Runs of the worker manager on concrete inputs *)

Lemma other_exception_is_not_retried_witness :
  exists t,
    spin_up_workers (unreachable_client 2 "EndpointConnectionError") (example_request 1) =
      (t, Raise (OtherError "EndpointConnectionError")) /\
    Z.of_nat (run_calls t) = 2 + 1 /\
    total_sleep t = 2 + 4 /\
    last t (EvSleep 0) = EvRunInstances (example_request 1) /\
    describe_queries t = [] /\ files_written t = [].
Proof.
  apply (other_exception_is_not_retried
           (unreachable_client 2 "EndpointConnectionError") (example_request 1) 2
           "EndpointConnectionError").
  - unfold MAX_RUN_WORKER_RETRIES. lia.
  - intros retry Hr. exists "RequestLimitExceeded". cbn.
    destruct (Z.leb_spec retry 2); [reflexivity|lia].
  - reflexivity.
Defined.

Lemma spin_up_exceptions_witness :
  files_written
    (fst (spin_up_workers (failing_client "RequestLimitExceeded") (example_request 1))) = [] /\
  (exhausted = exhausted \/
   exhausted = timed_out \/
   (exists retry name,
      run_instances (failing_client "RequestLimitExceeded") retry (example_request 1) =
        RunOtherError name /\ exhausted = OtherError name) \/
   (exists a q,
      describe_instances (failing_client "RequestLimitExceeded") a q =
        DescribeError exhausted) \/
   exhausted = KeyError "PrivateIpAddress").
Proof.
  apply (spin_up_exceptions (failing_client "RequestLimitExceeded") (example_request 1)
           (fst (spin_up_workers (failing_client "RequestLimitExceeded") (example_request 1)))
           exhausted).
  reflexivity.
Defined.

Lemma running_without_address_raises_witness :
  snd (spin_up_workers no_address_client (example_request 1)) =
    Raise (KeyError "PrivateIpAddress") /\
  describe_queries (fst (spin_up_workers no_address_client (example_request 1))) = [["i-1"]] /\
  files_written (fst (spin_up_workers no_address_client (example_request 1))) = [].
Proof.
  apply (running_without_address_raises no_address_client (example_request 1) ["i-1"]
           [[mk_instance_info "i-1" "running" None]]
           (mk_instance_info "i-1" "running" None)).
  - reflexivity.
  - reflexivity.
  - left. reflexivity.
  - reflexivity.
  - reflexivity.
Defined.

Lemma returned_run_wrote_two_files_witness :
  exists ids ips,
    snd (launch_workers three_workers (example_request 3)) = Return ids /\
    files_written (fst (spin_up_workers three_workers (example_request 3))) =
      [(ip_list_file, py_join "," ips); (task_arn_file, py_join "," ids)] /\
    forall ip, In ip ips ->
      exists a q rs info,
        describe_instances three_workers a q = DescribeOk rs /\ In info (List.concat rs) /\
        PrivateIpAddress info = Some ip.
Proof.
  apply (returned_run_wrote_two_files three_workers (example_request 3)).
  reflexivity.
Defined.

Lemma terminate_reads_back_launched_witness :
  exists ids content,
    snd (launch_workers three_workers (example_request 3)) = Return ids /\
    In (task_arn_file, content)
       (files_written (fst (spin_up_workers three_workers (example_request 3)))) /\
    forall ec2', terminate_calls (fst (terminate_workers ec2' (Some content))) = [ids].
Proof.
  apply (terminate_reads_back_launched three_workers (example_request 3)).
  - reflexivity.
  - apply scheduled_contract.
    + repeat constructor; discriminate.
    + exact example_addr_valid.
    + reflexivity.
  - reflexivity.
Defined.

Lemma no_instance_launched_witness :
  snd (spin_up_workers (scheduled_client [] (fun _ => 0) example_addr) (example_request 0)) =
    Return tt /\
  describe_queries
    (fst (spin_up_workers (scheduled_client [] (fun _ => 0) example_addr)
            (example_request 0))) = [[]] /\
  files_written
    (fst (spin_up_workers (scheduled_client [] (fun _ => 0) example_addr)
            (example_request 0))) = [(ip_list_file, ""); (task_arn_file, "")].
Proof.
  apply (no_instance_launched (scheduled_client [] (fun _ => 0) example_addr)
           (example_request 0) [[]]).
  - reflexivity.
  - reflexivity.
  - reflexivity.
Defined.

Lemma command_line_never_terminates_witness :
  (fst (main (fun _ => three_workers)
          (mk_cli_args (Some ActionDown) "us-east-1" (example_request 3) (Some "i-1,i-2"))) = [] /\
   exists msg,
     snd (main (fun _ => three_workers)
            (mk_cli_args (Some ActionDown) "us-east-1" (example_request 3) (Some "i-1,i-2"))) =
     Raise (AttributeError msg)) /\
  main (fun _ => three_workers)
    (mk_cli_args None "us-east-1" (example_request 3) None) =
    ([MainLog "No action specified for PytestWorkerManager"], Return tt).
Proof.
  split.
  - apply (proj1 (proj2 (command_line_never_terminates (fun _ => three_workers)
             (mk_cli_args (Some ActionDown) "us-east-1" (example_request 3)
                (Some "i-1,i-2"))))).
    reflexivity.
  - apply (proj2 (proj2 (proj2 (command_line_never_terminates (fun _ => three_workers)
             (mk_cli_args None "us-east-1" (example_request 3) None))))).
    reflexivity.
Defined.

(** * What the polling loop collects *)

Section PollReported.

Variable ec2 : ec2_client.

Lemma reported_no_queries (attempts : list Z) :
  reported_running_infos ec2 attempts [] = [].
Proof. destruct attempts; reflexivity. Qed.

(** The addresses the loop collects are those of the entries its answers
    reported running, in the order it read them. *)
Lemma wait_loop_reported (attempts : list Z) : forall nr ips t b ips',
  wait_loop ec2 attempts nr ips = (t, Return (b, ips')) ->
  map Some ips' =
  map Some ips ++
  map PrivateIpAddress (reported_running_infos ec2 attempts (describe_queries t)).
Proof.
  induction attempts as [|a rest IH]; intros nr ips t b ips' H.
  - injection H as <- _ <-. cbn. rewrite app_nil_r. reflexivity.
  - destruct (wait_loop_cases ec2 a rest nr ips); rewrite Hw in H; try discriminate H.
    + injection H as <- _ <-.
      destruct (scan_reservations_spec _ _ _ _ _ Hs) as (_ & addrs & -> & Haddrs).
      cbn [describe_queries reported_running_infos]. rewrite Hd, reported_no_queries.
      rewrite app_nil_r, map_app, Haddrs. reflexivity.
    + destruct (wait_loop ec2 rest nr' ips'0) as [t' r'] eqn:Hrest. cbn [fst snd] in H.
      injection H as <- ->.
      destruct (scan_reservations_spec _ _ _ _ _ Hs) as (_ & addrs & -> & Haddrs).
      cbn [describe_queries reported_running_infos]. rewrite Hd.
      rewrite (IH _ _ _ _ _ Hrest), !map_app, Haddrs, app_assoc. reflexivity.
Qed.

Lemma running_then_others {A : Type} (p : A -> bool) (l : list A) :
  Permutation (filter p l ++ filter (fun x => negb (p x)) l) l.
Proof.
  induction l as [|x l IH]; [constructor|].
  cbn [filter]. destruct (p x); cbn [negb app].
  - constructor. exact IH.
  - apply Permutation_sym, Permutation_cons_app, Permutation_sym, IH.
Qed.

(** With a client that answers for the queried identifiers, a loop that
    ends with all running was told so once for each identifier it started
    with. *)
Lemma wait_loop_reported_ids (attempts : list Z) : forall nr ips t ips',
  answers_queried ec2 ->
  wait_loop ec2 attempts nr ips = (t, Return (true, ips')) ->
  Permutation
    (map InstanceId (reported_running_infos ec2 attempts (describe_queries t))) nr.
Proof.
  induction attempts as [|a rest IH]; intros nr ips t ips' Hans H; [discriminate H|].
  destruct (wait_loop_cases ec2 a rest nr ips); rewrite Hw in H; try discriminate H.
  - injection H as <- _.
    destruct (scan_reservations_spec _ _ _ _ _ Hs) as (Hnr & _). cbn [app] in Hnr.
    cbn [describe_queries reported_running_infos]. rewrite Hd, reported_no_queries, app_nil_r.
    eapply Permutation_trans; [|exact (Hans _ _ _ Hd)].
    pose proof (running_then_others running_info (List.concat rs)) as Hsplit.
    apply (Permutation_map InstanceId) in Hsplit.
    rewrite map_app, <- Hnr, app_nil_r in Hsplit. exact Hsplit.
  - destruct (wait_loop ec2 rest nr' ips'0) as [t' r'] eqn:Hrest. cbn [fst snd] in H.
    injection H as <- ->.
    destruct (scan_reservations_spec _ _ _ _ _ Hs) as (Hnr & _). cbn [app] in Hnr.
    cbn [describe_queries reported_running_infos]. rewrite Hd, map_app.
    eapply Permutation_trans; [|exact (Hans _ _ _ Hd)].
    eapply Permutation_trans;
      [apply Permutation_app_head, (IH _ _ _ _ Hans Hrest)|].
    pose proof (running_then_others running_info (List.concat rs)) as Hsplit.
    apply (Permutation_map InstanceId) in Hsplit.
    rewrite map_app, <- Hnr in Hsplit. exact Hsplit.
Qed.

(** A loop that ends with all running ended at the first poll whose answer
    listed no instance in another state. *)
Lemma wait_loop_stops (attempts : list Z) : forall nr ips t ips',
  wait_loop ec2 attempts nr ips = (t, Return (true, ips')) ->
  exists n,
    List.length (describe_queries t) = S n /\
    (forall i a q, (i < n)%nat ->
       nth_error attempts i = Some a -> nth_error (describe_queries t) i = Some q ->
       exists rs info,
         describe_instances ec2 a q = DescribeOk rs /\ In info (List.concat rs) /\
         running_info info = false) /\
    exists a q rs,
      nth_error attempts n = Some a /\ nth_error (describe_queries t) n = Some q /\
      describe_instances ec2 a q = DescribeOk rs /\
      forall info, In info (List.concat rs) -> running_info info = true.
Proof.
  induction attempts as [|a rest IH]; intros nr ips t ips' H; [discriminate H|].
  destruct (wait_loop_cases ec2 a rest nr ips); rewrite Hw in H; try discriminate H.
  - injection H as <- _. exists 0%nat. split; [reflexivity|]. split; [intros i a' q Hi; lia|].
    exists a, nr, rs. repeat split; try reflexivity; [exact Hd|].
    destruct (scan_reservations_spec _ _ _ _ _ Hs) as (Hnr & _). cbn [app] in Hnr.
    intros info Hin. destruct (running_info info) eqn:Hrun; [reflexivity|exfalso].
    assert (Hin' : In (InstanceId info)
              (map InstanceId (filter (fun i => negb (running_info i)) (List.concat rs)))).
    { apply in_map, filter_In. split; [exact Hin|]. rewrite Hrun. reflexivity. }
    rewrite <- Hnr in Hin'. contradiction.
  - destruct (wait_loop ec2 rest nr' ips'0) as [t' r'] eqn:Hrest. cbn [fst snd] in H.
    injection H as <- ->.
    destruct (IH _ _ _ _ Hrest) as (n & Hlen & Hearlier & a' & q' & rs' & Ha' & Hq' & Hd' & Hall).
    exists (S n). cbn [describe_queries List.length]. split; [rewrite Hlen; reflexivity|]. split.
    + intros i a0 q Hi Ha0 Hq. destruct i as [|i].
      * cbn in Ha0, Hq. injection Ha0 as <-. injection Hq as <-.
        destruct (scan_reservations_spec _ _ _ _ _ Hs) as (Hnr & _). cbn [app] in Hnr.
        destruct (filter (fun i => negb (running_info i)) (List.concat rs)) as [|info l] eqn:Hf.
        { cbn in Hnr. contradiction. }
        assert (Hin : In info (filter (fun i => negb (running_info i)) (List.concat rs)))
          by (rewrite Hf; left; reflexivity).
        apply filter_In in Hin. destruct Hin as [Hin Hrun].
        exists rs, info. repeat split; [exact Hd|exact Hin|].
        apply negb_true_iff in Hrun. exact Hrun.
      * cbn in Ha0, Hq. apply (Hearlier i a0 q); [lia|exact Ha0|exact Hq].
    + exists a', q', rs'. repeat split; assumption.
Qed.

(** While the loop has not ended, it has logged counts only. *)
Lemma wait_loop_ran_out_log (attempts : list Z) : forall nr ips t ips',
  wait_loop ec2 attempts nr ips = (t, Return (false, ips')) ->
  Forall counts_only (logged t).
Proof.
  induction attempts as [|a rest IH]; intros nr ips t ips' H.
  - injection H as <- _. constructor.
  - destruct (wait_loop_cases ec2 a rest nr ips); rewrite Hw in H; try discriminate H.
    destruct (wait_loop ec2 rest nr' ips'0) as [t' r'] eqn:Hrest. cbn [fst snd] in H.
    injection H as <- ->. cbn [logged]. constructor; [exact I|].
    exact (IH _ _ _ _ Hrest).
Qed.

(** An identifier that no answer reports running keeps the loop going to
    its last iteration, when every call answers for the queried identifiers
    and every running instance has an address. *)
Lemma wait_loop_never_running (attempts : list Z) : forall nr ips id,
  answers_queried ec2 ->
  (forall a q, In a attempts ->
     exists rs, describe_instances ec2 a q = DescribeOk rs /\
       forall info, In info (List.concat rs) -> running_info info = true ->
                    PrivateIpAddress info <> None) ->
  (forall a q rs info, In a attempts ->
     describe_instances ec2 a q = DescribeOk rs -> In info (List.concat rs) ->
     InstanceId info = id -> running_info info = false) ->
  In id nr ->
  exists ips', snd (wait_loop ec2 attempts nr ips) = Return (false, ips').
Proof.
  induction attempts as [|a rest IH]; intros nr ips id Hans Hok Hnever Hid.
  - exists ips. reflexivity.
  - destruct (Hok a nr (or_introl eq_refl)) as (rs0 & Hd0 & Haddr).
    assert (Hstill : forall rs ips1 nr1,
              describe_instances ec2 a nr = DescribeOk rs ->
              scan_reservations rs ips [] = Return (ips1, nr1) -> In id nr1).
    { intros rs ips1 nr1 Hd Hs.
      destruct (scan_reservations_spec _ _ _ _ _ Hs) as (Hnr & _). cbn [app] in Hnr.
      apply (Permutation_in _ (Permutation_sym (Hans _ _ _ Hd))) in Hid.
      apply in_map_iff in Hid. destruct Hid as (info & Hi & Hin).
      rewrite Hnr, <- Hi. apply in_map, filter_In. split; [exact Hin|].
      rewrite (Hnever a nr rs info (or_introl eq_refl) Hd Hin Hi). reflexivity. }
    destruct (wait_loop_cases ec2 a rest nr ips); rewrite Hw; cbn [snd].
    + rewrite Hd0 in Hd. discriminate Hd.
    + exfalso. rewrite Hd0 in Hd. injection Hd as <-.
      assert (Hex : exists e', scan_reservations rs0 ips [] = Raise e') by (eexists; exact Hs).
      apply scan_reservations_raises in Hex. destruct Hex as (info & Hin & Hrun & Hnone).
      exact (Haddr info Hin Hrun Hnone).
    + exfalso. exact (Hstill _ _ _ Hd Hs).
    + apply (IH nr' ips' id Hans).
      * intros a' q Ha'. apply Hok. right. exact Ha'.
      * intros a' q rs' info Ha'. apply Hnever. right. exact Ha'.
      * exact (Hstill _ _ _ Hd Hs).
Qed.

End PollReported.

(** * Returned and timed-out runs, for every client *)

Section Runs.

Variable ec2 : ec2_client.
Variable req : request.

(** The retry loop logs retry records only. *)
Lemma run_loop_log (retries : list Z) :
  Forall counts_only (logged (fst (run_loop ec2 req retries))).
Proof.
  induction retries as [|retry rest IH]; [constructor|].
  destruct (run_instances ec2 retry req) as [insts|code|name] eqn:Hrun.
  - rewrite (run_loop_ok _ _ _ _ _ Hrun). constructor.
  - destruct (Z.eq_dec retry MAX_RUN_WORKER_RETRIES) as [->|Hne].
    + rewrite (run_loop_last _ _ _ _ Hrun). constructor.
    + rewrite (run_loop_retry _ _ _ _ _ Hrun Hne). cbn [fst logged].
      constructor; [exact I|]. constructor; [exact I|]. exact IH.
  - rewrite (run_loop_other _ _ _ _ _ Hrun). constructor.
Qed.

(** A run that returns: its phases, its describe calls, its sleeps, its
    files. *)
Lemma returned_run (t : trace) :
  spin_up_workers ec2 req = (t, Return tt) ->
  exists t2 ids ips,
    snd (launch_workers ec2 req) = Return ids /\
    wait_loop ec2 poll_attempts ids [] = (t2, Return (true, ips)) /\
    describe_queries t = describe_queries t2 /\
    total_sleep t = total_sleep (fst (launch_workers ec2 req)) + total_sleep t2 /\
    files_written t = [(ip_list_file, py_join "," ips); (task_arn_file, py_join "," ids)].
Proof.
  intros H. destruct (returned_run_phases ec2 req t H) as (t2 & ids & ips & Hl & Hw & Hfiles).
  exists t2, ids, ips. split; [exact Hl|]. split; [exact Hw|].
  destruct (spin_up_polls ec2 req _ _ H) as [[Hq Hsl]|(ids' & Hl' & Hq & Hsl)].
  - exfalso. destruct (spin_up_cases _ _ _ _ H); try discriminate Hr. subst t.
    cbn [describe_queries] in Hq. rewrite !describe_queries_app in Hq.
    apply app_eq_nil in Hq. destruct Hq as [_ Hq].
    apply app_eq_nil in Hq. destruct Hq as [Hq _].
    destruct (wait_loop_stops ec2 _ _ _ _ _ Hw0) as (n & Hlen & _).
    rewrite Hq in Hlen. discriminate Hlen.
  - rewrite Hl in Hl'. injection Hl' as <-. rewrite Hw in Hq, Hsl. cbn [fst] in Hq, Hsl.
    split; [exact Hq|]. split; [exact Hsl|exact Hfiles].
Qed.

Lemma paired_by_entry {A : Type} (f : A -> string) (g : A -> option string) (l : list A) :
  forall ids ips,
  map f l = ids -> map g l = map Some ips ->
  Forall2 (fun id ip => exists x, In x l /\ f x = id /\ g x = Some ip) ids ips.
Proof.
  induction l as [|x l IH]; intros ids ips Hids Hips.
  - destruct ids; [|discriminate Hids]. destruct ips; [|discriminate Hips]. constructor.
  - destruct ids as [|id ids]; [discriminate Hids|].
    destruct ips as [|ip ips]; [discriminate Hips|].
    cbn [map] in Hids, Hips. injection Hids as Hid Hids. injection Hips as Hip Hips.
    constructor.
    + exists x. split; [left; reflexivity|]. split; assumption.
    + eapply Forall2_impl; [|exact (IH _ _ Hids Hips)].
      intros id' ip' (y & Hy & Hfy & Hgy). exists y. split; [right; exact Hy|]. split; assumption.
Qed.

(** C1 as the code has it.  With a request for [N > 0] workers and a client
    that keeps the EC2 contract (it launches the [N] instances asked for,
    answers each describe call for exactly the queried identifiers, and
    hands out non-empty, comma-free identifiers and addresses), a run that
    returns was told by its describe answers, once for each launched
    identifier, that the instance is running; the addresses it wrote are
    those of these answers.  So it holds [N] identifiers and [N] addresses,
    none empty, and each file splits at commas into exactly its [N]
    entries. *)
Theorem spin_up_complete_fleet (t : trace) :
  0 < number_of_workers req ->
  provider_contract ec2 req ->
  spin_up_workers ec2 req = (t, Return tt) ->
  exists ids ips,
    snd (launch_workers ec2 req) = Return ids /\
    Permutation
      (map InstanceId (reported_running_infos ec2 poll_attempts (describe_queries t))) ids /\
    map PrivateIpAddress (reported_running_infos ec2 poll_attempts (describe_queries t)) =
      map Some ips /\
    files_written t = [(ip_list_file, py_join "," ips); (task_arn_file, py_join "," ids)] /\
    Z.of_nat (List.length ids) = number_of_workers req /\
    Z.of_nat (List.length ips) = number_of_workers req /\
    Forall (fun s => s <> "") ids /\
    Forall (fun s => s <> "") ips /\
    py_split comma (py_join "," ids) = ids /\
    py_split comma (py_join "," ips) = ips.
Proof.
  intros Hpos Hc H.
  destruct (returned_run t H) as (t2 & ids & ips & Hl & Hw & Hq & _ & Hfiles).
  destruct (launch_workers ec2 req) as [t1 r1] eqn:Hlw. cbn [snd] in Hl. subst r1.
  destruct (launch_workers_inv _ _ _ _ Hlw) as (retry & insts & Hrun & Hids).
  pose proof (launch_count _ _ Hc _ _ Hrun) as Hcount.
  pose proof (launch_ids _ _ Hc _ _ Hrun) as Hvalid. rewrite <- Hids in Hvalid.
  pose proof (wait_loop_reported_ids ec2 _ _ _ _ _ (describe_answers _ _ Hc) Hw) as Hperm.
  pose proof (wait_loop_reported ec2 _ _ _ _ _ _ Hw) as Hrep. cbn [map app] in Hrep.
  assert (Hlids : Z.of_nat (List.length ids) = number_of_workers req).
  { rewrite Hids, length_map. exact Hcount. }
  assert (Hlips : List.length ips = List.length ids).
  { rewrite <- (Permutation_length Hperm), length_map.
    rewrite <- (length_map Some ips), Hrep, length_map. reflexivity. }
  assert (Hips : Forall valid_entry ips).
  { apply Forall_forall. intros ip Hip.
    destruct (wait_loop_addresses _ _ _ _ _ _ _ Hw ip Hip)
      as [[]|(a & q & rs & info & Hd & Hin & Haddr)].
    exact (describe_addresses _ _ Hc _ _ _ _ _ Hd Hin Haddr). }
  exists ids, ips. rewrite Hq.
  split; [reflexivity|]. split; [exact Hperm|]. split; [symmetry; exact Hrep|].
  split; [exact Hfiles|]. split; [exact Hlids|]. split; [lia|].
  split; [eapply Forall_impl; [|exact Hvalid]; intros s [Hs _]; exact Hs|].
  split; [eapply Forall_impl; [|exact Hips]; intros s [Hs _]; exact Hs|].
  split.
  - apply py_split_join.
    + destruct ids; [cbn in Hlids; lia|discriminate].
    + eapply Forall_impl; [|exact Hvalid]. intros s [_ Hs]. exact Hs.
  - apply py_split_join.
    + destruct ips; [cbn in Hlips; destruct ids; [cbn in Hlids; lia|discriminate Hlips]
                   |discriminate].
    + eapply Forall_impl; [|exact Hips]. intros s [_ Hs]. exact Hs.
Qed.

(** C2 as the code has it.  After a run that returns, whatever the client:
    the identifier file lists the launched identifiers in launch order,
    and the address file lists the addresses in the order the describe
    answers reported instances running, poll by poll and within a poll in
    the order of the answer.  When that order is the launch order, the i-th
    address is the one reported for the i-th identifier. *)
Theorem artifacts_in_reported_order (t : trace) :
  spin_up_workers ec2 req = (t, Return tt) ->
  exists ids ips,
    snd (launch_workers ec2 req) = Return ids /\
    map PrivateIpAddress (reported_running_infos ec2 poll_attempts (describe_queries t)) =
      map Some ips /\
    files_written t = [(ip_list_file, py_join "," ips); (task_arn_file, py_join "," ids)] /\
    (map InstanceId (reported_running_infos ec2 poll_attempts (describe_queries t)) = ids ->
     Forall2
       (fun id ip =>
          exists info,
            In info (reported_running_infos ec2 poll_attempts (describe_queries t)) /\
            InstanceId info = id /\ PrivateIpAddress info = Some ip)
       ids ips).
Proof.
  intros H.
  destruct (returned_run t H) as (t2 & ids & ips & Hl & Hw & Hq & _ & Hfiles).
  pose proof (wait_loop_reported ec2 _ _ _ _ _ _ Hw) as Hrep. cbn [map app] in Hrep.
  exists ids, ips. rewrite Hq.
  split; [exact Hl|]. split; [symmetry; exact Hrep|]. split; [exact Hfiles|].
  intros Horder. apply paired_by_entry; [exact Horder|symmetry; exact Hrep].
Qed.

(** C7 as the code has it.  A run whose polling loop ends without
    [all_running] raises [StandardError] with the fixed message
    "Timed out waiting to spin up all workers." and writes no file; its log
    holds only the opening record, the records of launch retries and the
    number of workers still awaited at each poll, so neither the error nor
    the log names an identifier.  The loop ends so whenever some launched
    instance is reported running by no answer, every describe call answers
    for the queried identifiers, and every running instance has an
    address. *)
Theorem timeout_names_no_identifier (ids : list string) :
  snd (launch_workers ec2 req) = Return ids ->
  (forall ips,
     snd (wait_loop ec2 poll_attempts ids []) = Return (false, ips) ->
     snd (spin_up_workers ec2 req) = Raise timed_out /\
     files_written (fst (spin_up_workers ec2 req)) = [] /\
     Forall counts_only (logged (fst (spin_up_workers ec2 req)))) /\
  (forall id,
     In id ids ->
     answers_queried ec2 ->
     (forall a q, In a poll_attempts ->
        exists rs, describe_instances ec2 a q = DescribeOk rs /\
          forall info, In info (List.concat rs) -> running_info info = true ->
                       PrivateIpAddress info <> None) ->
     (forall a q rs info, In a poll_attempts ->
        describe_instances ec2 a q = DescribeOk rs -> In info (List.concat rs) ->
        InstanceId info = id -> running_info info = false) ->
     exists ips, snd (wait_loop ec2 poll_attempts ids []) = Return (false, ips)).
Proof.
  intros Hl. split.
  - intros ips Hw.
    destruct (launch_workers ec2 req) as [t1 r1] eqn:Hlw. cbn [snd] in Hl. subst r1.
    destruct (wait_loop ec2 poll_attempts ids []) as [t2 r2] eqn:Hwl. cbn [snd] in Hw. subst r2.
    rewrite (spin_up_timed_out _ _ _ _ _ _ Hlw Hwl). cbn [fst snd].
    split; [reflexivity|]. split.
    + cbn [files_written].
      rewrite (files_written_phases ec2 req t1 t2 ids (Return (false, ips)));
        [reflexivity|rewrite Hlw; reflexivity|rewrite Hwl; reflexivity].
    + cbn [logged]. constructor; [exact I|]. rewrite logged_app. apply Forall_app. split.
      * pose proof (run_loop_log (py_range 1 (MAX_RUN_WORKER_RETRIES + 1))) as Hlog.
        rewrite <- launch_workers_fst, Hlw in Hlog. exact Hlog.
      * exact (wait_loop_ran_out_log ec2 _ _ _ _ _ Hwl).
  - intros id Hid Hans Hok Hnever.
    exact (wait_loop_never_running ec2 poll_attempts ids [] id Hans Hok Hnever Hid).
Qed.

(** X9.  A run that returns stopped polling at the first poll whose answer
    listed no instance in a state other than running: the answer to every
    earlier poll listed an instance in another state, no poll followed, and
    the run slept five seconds for each poll on top of the launch
    backoff. *)
Theorem polling_stops_when_all_running (t : trace) :
  spin_up_workers ec2 req = (t, Return tt) ->
  exists n,
    List.length (describe_queries t) = S n /\
    total_sleep t = total_sleep (fst (launch_workers ec2 req)) + 5 * Z.of_nat (S n) /\
    (forall i q, (i < n)%nat ->
       nth_error (describe_queries t) i = Some q ->
       exists rs info,
         describe_instances ec2 (Z.of_nat i) q = DescribeOk rs /\
         In info (List.concat rs) /\ running_info info = false) /\
    exists q rs,
      nth_error (describe_queries t) n = Some q /\
      describe_instances ec2 (Z.of_nat n) q = DescribeOk rs /\
      forall info, In info (List.concat rs) -> running_info info = true.
Proof.
  intros H.
  destruct (returned_run t H) as (t2 & ids & ips & _ & Hw & Hq & Hsl & _).
  destruct (wait_loop_stops ec2 _ _ _ _ _ Hw)
    as (n & Hlen & Hearlier & a & q & rs & Ha & Hqn & Hd & Hall).
  pose proof (wait_loop_trace ec2 poll_attempts ids []) as (_ & _ & Hsl2 & Hbound).
  rewrite Hw in Hsl2, Hbound. cbn [fst] in Hsl2, Hbound.
  exists n. rewrite Hq, Hsl, Hsl2, Hlen.
  split; [reflexivity|]. split; [reflexivity|]. split.
  - intros i q0 Hi Hq0.
    apply (Hearlier i (Z.of_nat i) q0 Hi); [|exact Hq0].
    unfold poll_attempts in *. rewrite nth_error_py_range_Some; [reflexivity|].
    rewrite py_range_length in Hbound. lia.
  - unfold poll_attempts in Ha. apply nth_error_py_range in Ha. cbn in Ha. subst a.
    exists q, rs. split; [exact Hqn|]. split; [exact Hd|exact Hall].
Qed.

End Runs.

(** ** Runs on concrete inputs *)

(** C1, refuted as stated: against a client whose describe answers leave
    out the second of two launched instances, the run returns with two
    identifiers and one address. *)
Lemma partial_fleet_returned :
  spin_up_workers omitting_client (example_request 2) =
    (fst (spin_up_workers omitting_client (example_request 2)), Return tt) /\
  files_written (fst (spin_up_workers omitting_client (example_request 2))) =
    [(ip_list_file, "10.0.0.1"); (task_arn_file, "i-1,i-2")] /\
  ~ (forall ec2 req t,
       0 < number_of_workers req ->
       spin_up_workers ec2 req = (t, Return tt) ->
       exists addresses identifiers,
         files_written t = [(ip_list_file, addresses); (task_arn_file, identifiers)] /\
         Z.of_nat (List.length (py_split comma addresses)) = number_of_workers req /\
         Z.of_nat (List.length (py_split comma identifiers)) = number_of_workers req).
Proof.
  split; [reflexivity|]. split; [reflexivity|].
  intros H.
  destruct (H omitting_client (example_request 2) _ eq_refl eq_refl)
    as (addresses & identifiers & Hfiles & Haddr & _).
  vm_compute in Hfiles. injection Hfiles as <- _.
  vm_compute in Haddr. discriminate Haddr.
Qed.

Lemma spin_up_complete_fleet_witness :
  exists ids ips,
    snd (launch_workers three_workers (example_request 3)) = Return ids /\
    Permutation
      (map InstanceId
         (reported_running_infos three_workers poll_attempts
            (describe_queries (fst (spin_up_workers three_workers (example_request 3))))))
      ids /\
    map PrivateIpAddress
      (reported_running_infos three_workers poll_attempts
         (describe_queries (fst (spin_up_workers three_workers (example_request 3))))) =
      map Some ips /\
    files_written (fst (spin_up_workers three_workers (example_request 3))) =
      [(ip_list_file, py_join "," ips); (task_arn_file, py_join "," ids)] /\
    Z.of_nat (List.length ids) = 3 /\
    Z.of_nat (List.length ips) = 3 /\
    Forall (fun s => s <> "") ids /\
    Forall (fun s => s <> "") ips /\
    py_split comma (py_join "," ids) = ids /\
    py_split comma (py_join "," ips) = ips.
Proof.
  apply (spin_up_complete_fleet three_workers (example_request 3)).
  - reflexivity.
  - apply scheduled_contract.
    + repeat constructor; discriminate.
    + exact example_addr_valid.
    + reflexivity.
  - reflexivity.
Defined.

Lemma artifacts_in_reported_order_witness :
  exists ids ips,
    snd (launch_workers second_first (example_request 2)) = Return ids /\
    map PrivateIpAddress
      (reported_running_infos second_first poll_attempts
         (describe_queries (fst (spin_up_workers second_first (example_request 2))))) =
      map Some ips /\
    files_written (fst (spin_up_workers second_first (example_request 2))) =
      [(ip_list_file, py_join "," ips); (task_arn_file, py_join "," ids)] /\
    (map InstanceId
       (reported_running_infos second_first poll_attempts
          (describe_queries (fst (spin_up_workers second_first (example_request 2))))) = ids ->
     Forall2
       (fun id ip =>
          exists info,
            In info
              (reported_running_infos second_first poll_attempts
                 (describe_queries (fst (spin_up_workers second_first (example_request 2))))) /\
            InstanceId info = id /\ PrivateIpAddress info = Some ip)
       ids ips).
Proof.
  apply (artifacts_in_reported_order second_first (example_request 2)).
  reflexivity.
Defined.

(** Two instances reported running by the same answer, in the reverse of
    the launch order: one poll, and the files disagree position by
    position. *)
Lemma reversed_answer_misaligned :
  spin_up_workers (reversed_client ["i-1"; "i-2"] example_addr) (example_request 2) =
    (fst (spin_up_workers (reversed_client ["i-1"; "i-2"] example_addr) (example_request 2)),
     Return tt) /\
  describe_queries
    (fst (spin_up_workers (reversed_client ["i-1"; "i-2"] example_addr) (example_request 2))) =
    [["i-1"; "i-2"]] /\
  files_written
    (fst (spin_up_workers (reversed_client ["i-1"; "i-2"] example_addr) (example_request 2))) =
    [(ip_list_file, "10.0.0.2,10.0.0.1"); (task_arn_file, "i-1,i-2")] /\
  answers_queried (reversed_client ["i-1"; "i-2"] example_addr).
Proof.
  split; [reflexivity|]. split; [reflexivity|]. split; [reflexivity|].
  intros a q rs H. cbn in H. injection H as <-.
  cbn [List.concat]. rewrite app_nil_r, map_map. cbn. rewrite map_id.
  apply Permutation_sym, Permutation_rev.
Qed.

Lemma timeout_names_no_identifier_witness :
  (snd (spin_up_workers throttled_late_client (example_request 1)) = Raise timed_out /\
   files_written (fst (spin_up_workers throttled_late_client (example_request 1))) = [] /\
   Forall counts_only (logged (fst (spin_up_workers throttled_late_client (example_request 1))))) /\
  exists ips,
    snd (wait_loop throttled_late_client poll_attempts ["i-1"] []) = Return (false, ips).
Proof.
  split.
  - apply (proj1 (timeout_names_no_identifier throttled_late_client (example_request 1)
                    ["i-1"] eq_refl) []).
    reflexivity.
  - apply (proj2 (timeout_names_no_identifier throttled_late_client (example_request 1)
                    ["i-1"] eq_refl) "i-1").
    + left. reflexivity.
    + intros a q rs H. cbn in H. injection H as <-.
      cbn [List.concat]. rewrite app_nil_r, map_map. cbn. rewrite map_id.
      apply Permutation_refl.
    + intros a q _. eexists. split; [reflexivity|].
      intros info Hin _ Hnone. cbn [List.concat] in Hin. rewrite app_nil_r in Hin.
      apply in_map_iff in Hin. destruct Hin as (id & <- & _). discriminate Hnone.
    + intros a q rs info Ha Hd Hin _. cbn in Hd. injection Hd as <-.
      cbn [List.concat] in Hin. rewrite app_nil_r in Hin.
      apply in_map_iff in Hin. destruct Hin as (id & <- & _).
      rewrite scheduled_info_running. apply py_range_In in Ha.
      apply Z.leb_gt. unfold WORKER_RUN_TIMEOUT_MINUTES in Ha. lia.
Defined.

Lemma polling_stops_when_all_running_witness :
  exists n,
    List.length (describe_queries
      (fst (spin_up_workers second_first (example_request 2)))) = S n /\
    total_sleep (fst (spin_up_workers second_first (example_request 2))) =
      total_sleep (fst (launch_workers second_first (example_request 2))) +
      5 * Z.of_nat (S n) /\
    (forall i q, (i < n)%nat ->
       nth_error (describe_queries
         (fst (spin_up_workers second_first (example_request 2)))) i = Some q ->
       exists rs info,
         describe_instances second_first (Z.of_nat i) q = DescribeOk rs /\
         In info (List.concat rs) /\ running_info info = false) /\
    exists q rs,
      nth_error (describe_queries
        (fst (spin_up_workers second_first (example_request 2)))) n = Some q /\
      describe_instances second_first (Z.of_nat n) q = DescribeOk rs /\
      forall info, In info (List.concat rs) -> running_info info = true.
Proof.
  apply (polling_stops_when_all_running second_first (example_request 2)).
  reflexivity.
Defined.
